(** * Forage: batch domain checking with TLD pricing

    A shallow embedding of [grove_domain_tool/pricing.py] and of the batch
    entry points of [grove_domain_search/cli.py], followed by the properties
    of the pricing cache, the tier categorisation and the merge of
    availability results with prices.

    Conventions of the embedding
    - Python [int] is [Z]; [str] is [string]; [dict] keyed by strings is
      [gmap string _] where only membership and lookup are used, and an
      association list for decoded JSON objects; a [set] of strings is
      [gset string], iterated in an order the program does not control.
    - Exceptions are explicit: a computation yields [Return v] or
      [Raise e], and [try_except] mirrors the handler chain of the source.
    - The pricing client is threaded as explicit state.  The HTTP endpoint
      is an oracle indexed by the number of requests already sent, so that
      two fetches may answer differently. *)

From stdpp Require Import gmap strings list fin_maps pretty.
From Stdlib Require Import ZArith Lia Ascii.

Set Warnings "-register-all".

Local Open Scope string_scope.
Local Open Scope Z_scope.

(** ** Configuration ([config.pricing.*]) *)

Record PricingConfig := {
  bundled_max_cents : Z;
  recommended_max_cents : Z;
  premium_flag_above_cents : Z
}.

Record Config := { pricing : PricingConfig }.

(** ** [DomainPrice] (pricing.py, lines 16-60) *)

Module DomainPrice.

Record t := mk {
  domain : string;
  tld : string;
  price_cents : Z;
  currency : string;
  is_premium : bool;
  is_bundled : bool;
  is_recommended : bool;
  annual_renewal_cents : option Z
}.

Section methods.
Context (config : Config).

(** The three flags are recomputed from [price_cents]; whatever the
    constructor received for them is overwritten. *)
Definition __post_init__ (self : t) : t :=
  {| domain := domain self;
     tld := tld self;
     price_cents := price_cents self;
     currency := currency self;
     is_premium :=
       bool_decide (premium_flag_above_cents (pricing config) <= price_cents self);
     is_bundled :=
       bool_decide (price_cents self <= bundled_max_cents (pricing config));
     is_recommended :=
       bool_decide (price_cents self <= recommended_max_cents (pricing config));
     annual_renewal_cents := annual_renewal_cents self |}.

(** The dataclass constructor as the source calls it: keyword arguments
    [domain], [tld], [price_cents], [currency], [annual_renewal_cents];
    the flags take their default [False] and [__post_init__] runs. *)
Definition new (domain tld : string) (price_cents : Z) (currency : string)
    (annual_renewal_cents : option Z) : t :=
  __post_init__
    (mk domain tld price_cents currency false false false annual_renewal_cents).

Definition category (self : t) : string :=
  if is_bundled self then "bundled"
  else if is_recommended self then "recommended"
  else if is_premium self then "premium"
  else "standard".

End methods.

End DomainPrice.

(** ** Exceptions and outcomes *)

Inductive exn_class :=
  | PricingError        (* pricing.py, line 63 *)
  | HTTPError           (* httpx.HTTPError and its subclasses *)
  | JSONDecodeError
  | AttributeError
  | TypeError
  | ValueError
  | OverflowError.

Record exception := Exc { exc_class : exn_class; exc_msg : string }.

Inductive outcome (A : Type) :=
  | Return (a : A)
  | Raise (e : exception).
Arguments Return {A} a.
Arguments Raise {A} e.

Definition obind {A B} (o : outcome A) (k : A → outcome B) : outcome B :=
  match o with
  | Return a => k a
  | Raise e => Raise e
  end.

(** [isinstance(e, cls)] for the two classes the handlers name.  Every
    class above derives from [Exception]. *)
Definition is_HTTPError (e : exception) : bool :=
  match exc_class e with HTTPError => true | _ => false end.

Definition is_PricingError (e : exception) : bool :=
  match exc_class e with PricingError => true | _ => false end.

(** ** Values decoded from JSON

    Floating point is not modelled: the float type and the three
    operations the program applies to it are taken from the runtime. *)

Class PyFloat := {
  float : Type;
  float_mul_int : float → Z → float;      (* [x * n] for an int [n] *)
  int_of_float : float → outcome Z;       (* [int(x)]: raises on inf and nan *)
  bool_of_float : float → bool            (* truth value: [x != 0.0] *)
}.

Inductive pyval `{PyFloat} :=
  | PNone
  | PBool (b : bool)
  | PInt (z : Z)
  | PFloat (x : float)
  | PStr (s : string)
  | PList (l : list pyval)
  | PDict (d : list (string * pyval)).

(** What the HTTP GET of the catalogue can come back with. *)
Inductive fetch_outcome `{PyFloat} :=
  | TransportError (msg : string)   (* [client.get] raises an httpx.HTTPError *)
  | StatusError (msg : string)      (* [raise_for_status] raises HTTPStatusError *)
  | InvalidJson (msg : string)      (* [response.json()] raises JSONDecodeError *)
  | Payload (data : pyval).         (* the decoded body *)

(** The remaining runtime primitives: [str.lower], [int(s)] on a string
    and [str(v)] as an f-string renders a value. *)
Class PyStr `{PyFloat} := {
  str_lower : string → string;
  int_of_str : string → outcome Z;
  str_of : pyval → string
}.

Section python_values.
Context `{PyFloat}.

Fixpoint dict_lookup (key : string) (d : list (string * pyval)) : option pyval :=
  match d with
  | [] => None
  | (k, v) :: d' => if bool_decide (k = key) then Some v else dict_lookup key d'
  end.

(** [o.get(key, default)]: only a dict has the method. *)
Definition py_get (o : pyval) (key : string) (fallback : pyval) : outcome pyval :=
  match o with
  | PDict d => Return (default fallback (dict_lookup key d))
  | _ => Raise (Exc AttributeError "object has no attribute 'get'")
  end.

(** Truth value of a decoded value, as [if not data.get("success")] tests it. *)
Definition py_bool (v : pyval) : bool :=
  match v with
  | PNone => false
  | PBool b => b
  | PInt z => negb (bool_decide (z = 0))
  | PFloat x => bool_of_float x
  | PStr s => negb (bool_decide (s = ""))
  | PList l => match l with [] => false | _ => true end
  | PDict d => match d with [] => false | _ => true end
  end.

Fixpoint chars (s : string) : list string :=
  match s with
  | EmptyString => []
  | String c s' => String c EmptyString :: chars s'
  end.

(** [for x in v]: a list yields its items, a dict its keys, a string its
    characters; nothing else is iterable. *)
Definition py_iter (v : pyval) : outcome (list pyval) :=
  match v with
  | PList l => Return l
  | PDict d => Return (map (λ kv, PStr kv.1) d)
  | PStr s => Return (map PStr (chars s))
  | _ => Raise (Exc TypeError "object is not iterable")
  end.

(** [v == s] for a [str] [s]. *)
Definition py_eq_str (v : pyval) (s : string) : bool :=
  match v with
  | PStr s' => bool_decide (s' = s)
  | _ => false
  end.

Fixpoint str_repeat (s : string) (n : nat) : string :=
  match n with
  | O => ""
  | S n' => s ++ str_repeat s n'
  end.

(** [v * n] for an int [n]: numbers multiply, sequences repeat. *)
Definition py_mul_int (v : pyval) (n : Z) : outcome pyval :=
  match v with
  | PBool b => Return (PInt ((if b then 1 else 0) * n))
  | PInt z => Return (PInt (z * n))
  | PFloat x => Return (PFloat (float_mul_int x n))
  | PStr s => Return (PStr (str_repeat s (Z.to_nat n)))
  | PList l => Return (PList (concat (replicate (Z.to_nat n) l)))
  | PNone | PDict _ => Raise (Exc TypeError "unsupported operand type(s) for *")
  end.

Context `{!PyStr}.

(** [int(v)]. *)
Definition py_int (v : pyval) : outcome Z :=
  match v with
  | PBool b => Return (if b then 1 else 0)
  | PInt z => Return z
  | PFloat x => int_of_float x
  | PStr s => int_of_str s
  | PNone | PList _ | PDict _ =>
      Raise (Exc TypeError "int() argument must be a string or a number")
  end.

(** [str.split(sep)] for a one-character separator: never empty, and a
    string without the separator comes back whole. *)
Fixpoint split (sep : Ascii.ascii) (s : string) : list string :=
  match s with
  | EmptyString => [""]
  | String c s' =>
      if bool_decide (c = sep) then "" :: split sep s'
      else match split sep s' with
           | h :: t => String c h :: t
           | [] => [String c ""]
           end
  end.

(** [domain.lower().split(".")[-1]] (pricing.py, lines 137, 163, 179). *)
Definition tld_of (domain : string) : string :=
  List.last (split "."%char (str_lower domain)) "".

End python_values.

(** ** The pricing client ([CloudflarePricing], pricing.py, lines 68-190)

    [_price_cache] is the instance attribute.  [sent] is a ghost counter
    of the GET requests issued so far; it also selects the answer of the
    endpoint.  The [timeout] attribute has no effect on values. *)

Record CloudflarePricing := {
  _price_cache : gmap string DomainPrice.t;
  sent : nat
}.

(** [CloudflarePricing()] (line 194): the singleton starts with an empty cache. *)
Definition pricing_client : CloudflarePricing :=
  {| _price_cache := ∅; sent := 0 |}.

(** Computations over the client that may raise. *)
Definition M (A : Type) : Type := CloudflarePricing → outcome A * CloudflarePricing.

Definition ret {A} (a : A) : M A := λ self, (Return a, self).

Definition raise {A} (e : exception) : M A := λ self, (Raise e, self).

Definition bind {A B} (c : M A) (k : A → M B) : M B :=
  λ self, match c self with
          | (Return a, self') => k a self'
          | (Raise e, self') => (Raise e, self')
          end.

Definition lift {A} (o : outcome A) : M A := λ self, (o, self).

(** [try: body except ...: handler]; what the body did to the client
    before raising stays done. *)
Definition try_except {A} (body : M A) (handler : exception → M A) : M A :=
  λ self, match body self with
          | (Return a, self') => (Return a, self')
          | (Raise e, self') => handler e self'
          end.

Declare Scope py_scope.
Delimit Scope py_scope with py.
Notation "x <- c ;; k" := (bind c (λ x, k))
  (at level 100, c at next level, right associativity) : py_scope.
Notation "c ;;; k" := (bind c (λ _, k))
  (at level 100, right associativity) : py_scope.
Notation "x <~ o ;; k" := (obind o (λ x, k))
  (at level 100, o at next level, right associativity) : py_scope.

Local Open Scope py_scope.

Section pricing.
Context `{PyStr}.
Context (config : Config).

(** The endpoint: the answer to the [n]-th GET of this run. *)
Context (net : nat → fetch_outcome).

(** The order in which Python iterates a set of strings: some enumeration
    of its elements, fixed by hashing and not by the program. *)
Context (set_iter : gset string → list string).

(** Lines 93-98: one GET, [raise_for_status], [response.json()]. *)
Definition fetch_catalogue : M pyval :=
  λ self,
    let self' := {| _price_cache := _price_cache self; sent := S (sent self) |} in
    match net (sent self) with
    | TransportError msg => (Raise (Exc HTTPError msg), self')
    | StatusError msg => (Raise (Exc HTTPError msg), self')
    | InvalidJson msg => (Raise (Exc JSONDecodeError msg), self')
    | Payload data => (Return data, self')
    end.

(** [self._price_cache[tld] = domain_price] (line 115). *)
Definition cache_store (tld : string) (p : DomainPrice.t) : M unit :=
  λ self, (Return tt, {| _price_cache := <[tld := p]> (_price_cache self);
                         sent := sent self |}).

(** [int(v * 100)], the conversion applied to both amounts (lines 105-106). *)
Definition cents_of (v : pyval) : outcome Z :=
  scaled <~ py_mul_int v 100 ;;
  py_int scaled.

(** Lines 105-113: the two amounts and the [DomainPrice] built from one
    matching catalogue entry. *)
Definition entry_price (tld : string) (pricing_info : pyval) : outcome DomainPrice.t :=
  price <~ py_get pricing_info "price" (PInt 0) ;;
  price_cents <~ cents_of price ;;
  renewal <~ py_get pricing_info "renewal_price" (PInt price_cents) ;;
  renewal_cents <~ cents_of renewal ;;
  Return (DomainPrice.new config ("." ++ tld) tld price_cents "USD" (Some renewal_cents)).

(** Lines 103-119: the scan of [data["result"]] for the first entry whose
    ["tld"] equals the requested one. *)
Fixpoint scan_result (tld : string) (items : list pyval) : M (option DomainPrice.t) :=
  match items with
  | [] => ret None
  | pricing_info :: rest =>
      t <- lift (py_get pricing_info "tld" PNone) ;;
      if py_eq_str t tld then
        domain_price <- lift (entry_price tld pricing_info) ;;
        cache_store tld domain_price ;;;
        ret (Some domain_price)
      else scan_result tld rest
  end.

(** Lines 93-119, the body of the [try]. *)
Definition fetch_tld (tld : string) : M (option DomainPrice.t) :=
  data <- fetch_catalogue ;;
  success <- lift (py_get data "success" PNone) ;;
  if negb (py_bool success) then
    errors <- lift (py_get data "errors" (PStr "Unknown error")) ;;
    raise (Exc PricingError ("API error: " ++ str_of errors))
  else
    result <- lift (py_get data "result" (PList [])) ;;
    items <- lift (py_iter result) ;;
    scan_result tld items.

(** Lines 121-124, the two handlers. *)
Definition wrap_error {A} (e : exception) : M A :=
  if is_HTTPError e then
    raise (Exc PricingError ("HTTP error fetching pricing: " ++ exc_msg e))
  else
    raise (Exc PricingError ("Error fetching pricing: " ++ exc_msg e)).

(** [CloudflarePricing.get_tld_pricing] (lines 79-124). *)
Definition get_tld_pricing (tld : string) : M (option DomainPrice.t) :=
  λ self,
    match _price_cache self !! tld with
    | Some cached => (Return (Some cached), self)
    | None => try_except (fetch_tld tld) wrap_error self
    end.

(** [CloudflarePricing.get_domain_pricing] (lines 126-150). *)
Definition get_domain_pricing (domain : string) : M (option DomainPrice.t) :=
  let tld := tld_of domain in
  pricing <- get_tld_pricing tld ;;
  match pricing with
  | Some pricing =>
      ret (Some (DomainPrice.new config domain
                   (DomainPrice.tld pricing)
                   (DomainPrice.price_cents pricing)
                   (DomainPrice.currency pricing)
                   (DomainPrice.annual_renewal_cents pricing)))
  | None => ret None
  end.

(** Lines 166-174: one pass of the loop over the TLDs.  Only
    [PricingError] is caught; anything else would leave the loop. *)
Definition price_one_tld (pricing_results : gmap string DomainPrice.t) (tld : string)
    : M (gmap string DomainPrice.t) :=
  try_except
    (tld_pricing <- get_tld_pricing tld ;;
     match tld_pricing with
     | Some p => ret (<[tld := p]> pricing_results)
     | None => ret pricing_results
     end)
    (λ e, if is_PricingError e then ret pricing_results else raise e).

Fixpoint price_tlds (pricing_results : gmap string DomainPrice.t) (tlds : list string)
    : M (gmap string DomainPrice.t) :=
  match tlds with
  | [] => ret pricing_results
  | tld :: rest =>
      pricing_results' <- price_one_tld pricing_results tld ;;
      price_tlds pricing_results' rest
  end.

(** Lines 177-188: the projection of the TLD prices onto the domains. *)
Fixpoint map_back (pricing_results : gmap string DomainPrice.t) (domains : list string)
    (domain_pricing : gmap string DomainPrice.t) : gmap string DomainPrice.t :=
  match domains with
  | [] => domain_pricing
  | domain :: rest =>
      let tld := tld_of domain in
      match pricing_results !! tld with
      | Some tld_pricing =>
          map_back pricing_results rest
            (<[domain := DomainPrice.new config domain
                           (DomainPrice.tld tld_pricing)
                           (DomainPrice.price_cents tld_pricing)
                           (DomainPrice.currency tld_pricing)
                           (DomainPrice.annual_renewal_cents tld_pricing)]>
               domain_pricing)
      | None => map_back pricing_results rest domain_pricing
      end
  end.

(** The set comprehension of line 163. *)
Definition tld_set (domains : list string) : gset string :=
  list_to_set (map tld_of domains).

(** [CloudflarePricing.batch_pricing] (lines 152-190). *)
Definition batch_pricing (domains : list string) : M (gmap string DomainPrice.t) :=
  let tlds := tld_set domains in
  pricing_results <- price_tlds ∅ (set_iter tlds) ;;
  ret (map_back pricing_results domains ∅).

End pricing.

(** ** Availability results ([checker.py], imported by cli.py, line 15) *)

Inductive status := AVAILABLE | REGISTERED | UNKNOWN.

#[global] Instance status_eq_dec : EqDecision status.
Proof. solve_decision. Defined.

Module DomainResult.

(** The six declared fields, and [_pricing_info], the attribute that
    cli.py sets on a result after the fact (lines 114 and 135); [None]
    stands for the attribute being absent. *)
Record t := mk {
  domain : string;
  status : status;
  registrar : option string;
  expiration : option string;
  creation : option string;
  error : option string;
  _pricing_info : option DomainPrice.t
}.

(** [result._pricing_info = pricing]. *)
Definition set_pricing_info (result : t) (pricing : DomainPrice.t) : t :=
  {| domain := domain result;
     status := status result;
     registrar := registrar result;
     expiration := expiration result;
     creation := creation result;
     error := error result;
     _pricing_info := Some pricing |}.

End DomainResult.

(** What the registration lookup of one domain can come back with. *)
Inductive lookup_outcome :=
  | Registration (registrar expiration creation : option string)
  | NoRecord
  | LookupFailure (reason : string).

(** Modelled from the spec: [check_domain] of checker.py, which is not
    among the sources.  A registration record gives REGISTERED with its
    details, the absence of one gives AVAILABLE, and any failure of the
    lookup gives UNKNOWN with [error] set; the result names the domain
    that was asked for. *)
Definition check_domain_from (answer : lookup_outcome) (domain : string) : DomainResult.t :=
  match answer with
  | Registration registrar expiration creation =>
      DomainResult.mk domain REGISTERED registrar expiration creation None None
  | NoRecord =>
      DomainResult.mk domain AVAILABLE None None None None None
  | LookupFailure reason =>
      DomainResult.mk domain UNKNOWN None None None (Some reason) None
  end.

Section cli.
Context `{PyStr}.
Context (config : Config).
Context (net : nat → fetch_outcome).
Context (set_iter : gset string → list string).

(** The registration service: the answer to the [i]-th lookup of a run,
    made for the given domain.  Lookups go over the network, so two
    lookups of one name need not agree. *)
Context (lookup : nat → string → lookup_outcome).

(** Modelled from the spec: [check_domain] applied to the first lookup of
    a run. *)
Definition check_domain (domain : string) : DomainResult.t :=
  check_domain_from (lookup 0%nat domain) domain.

(** Modelled from the spec: [check_domains] of checker.py, which is not
    among the sources.  The domains are looked up one after the other in
    input order, one result each; the pause between lookups and the
    progress display do not change the results. *)
Definition check_domains (domains : list string) : list DomainResult.t :=
  imap (λ i domain, check_domain_from (lookup i domain) domain) domains.

(** The module-level helpers of pricing.py (lines 197-220) call the
    methods of the singleton client. *)
Definition get_batch_pricing (domains : list string) : M (gmap string DomainPrice.t) :=
  batch_pricing config net set_iter domains.

(** cli.py, lines 133-135, for one result. *)
Definition attach_pricing (pricing_info : gmap string DomainPrice.t)
    (result : DomainResult.t) : DomainResult.t :=
  match pricing_info !! DomainResult.domain result with
  | Some price => DomainResult.set_pricing_info result price
  | None => result
  end.

(** cli.py, line 128. *)
Definition available_of (results : list DomainResult.t) : list string :=
  map DomainResult.domain
      (filter (λ r, DomainResult.status r = AVAILABLE) results).

(** [check_single_domain] (cli.py, lines 105-118).  The handler prints a
    warning and carries on. *)
Definition check_single_domain (domain : string) (include_pricing : bool)
    : M DomainResult.t :=
  let result := check_domain domain in
  if include_pricing && bool_decide (DomainResult.status result = AVAILABLE) then
    try_except
      (pricing <- get_domain_pricing config net domain ;;
       match pricing with
       | Some pricing => ret (DomainResult.set_pricing_info result pricing)
       | None => ret result
       end)
      (λ e, ret result)
  else ret result.

(** [check_multiple_domains] (cli.py, lines 121-139).  The handler prints
    a warning and carries on. *)
Definition check_multiple_domains (domains : list string) (include_pricing : bool)
    : M (list DomainResult.t) :=
  let results := check_domains domains in
  if include_pricing then
    let available_domains := available_of results in
    match available_domains with
    | [] => ret results
    | _ :: _ =>
        try_except
          (pricing_info <- get_batch_pricing available_domains ;;
           ret (map (attach_pricing pricing_info) results))
          (λ e, ret results)
    end
  else ret results.

End cli.

(** ** Tier lists ([categorize_domains_by_pricing], pricing.py, lines 223-243)

    Both dicts are kept in insertion order: the argument as the list of
    its items, the result as the list of its four keys with their lists. *)

Definition categories_init : list (string * list string) :=
  [("bundled", []); ("recommended", []); ("standard", []); ("premium", [])].

(** [categories[key].append(domain)]; [None] stands for the [KeyError]
    of a missing key. *)
Fixpoint append_to (key domain : string) (categories : list (string * list string))
    : option (list (string * list string)) :=
  match categories with
  | [] => None
  | (k, domains) :: rest =>
      if bool_decide (k = key) then Some ((k, (domains ++ [domain])%list) :: rest)
      else cons (k, domains) <$> append_to key domain rest
  end.

Fixpoint categorize_loop (items : list (string * DomainPrice.t))
    (categories : list (string * list string)) : option (list (string * list string)) :=
  match items with
  | [] => Some categories
  | (domain, price_info) :: rest =>
      match append_to (DomainPrice.category price_info) domain categories with
      | Some categories' => categorize_loop rest categories'
      | None => None
      end
  end.

Definition categorize_domains_by_pricing (domain_prices : list (string * DomainPrice.t))
    : option (list (string * list string)) :=
  categorize_loop domain_prices categories_init.

(** ** The command line ([cli.py]) *)

(** What the command line needs from the runtime beyond the above:
    [price_cents / 100.0], the [:.2f] rendering of a float and
    [str.strip]. *)
Class PyDisplay `{PyFloat} := {
  dollars_of_cents : Z → float;
  format_2f : float → string;
  str_strip : string → string
}.

Definition ESC : Ascii.ascii := "027"%char.
Definition LF : Ascii.ascii := "010"%char.

(** Truth value of an optional string: [None] and the empty string are false. *)
Definition opt_bool (o : option string) : bool :=
  match o with
  | Some s => negb (bool_decide (s = ""))
  | None => false
  end.

Definition opt_str (o : option string) : string := default "None" o.

(** [sep.join(parts)]. *)
Fixpoint join (sep : string) (parts : list string) : string :=
  match parts with
  | [] => ""
  | [part] => part
  | part :: rest => part ++ sep ++ join sep rest
  end.

Section display.
Context `{PyDisplay}.

(** [DomainPrice.price_dollars] (pricing.py, lines 34-37). *)
Definition price_dollars (self : DomainPrice.t) : float :=
  dollars_of_cents (DomainPrice.price_cents self).

(** [format_domain_result] (cli.py, lines 20-53). *)
Definition format_domain_result (result : DomainResult.t)
    (price_info : option DomainPrice.t) : string :=
  let '(status, color) :=
    match DomainResult.status result with
    | AVAILABLE => ("✓ AVAILABLE", String ESC "[92m")
    | REGISTERED => ("✗ REGISTERED", String ESC "[91m")
    | UNKNOWN => ("? UNKNOWN", String ESC "[93m")
    end in
  let output :=
    color ++ DomainResult.domain result ++ ": " ++ status ++ String ESC "[0m" in
  let output :=
    match price_info, DomainResult.status result with
    | Some price_info, AVAILABLE =>
        output ++ " $" ++ format_2f (price_dollars price_info)
          ++ " (" ++ DomainPrice.category price_info ++ ")"
    | _, _ => output
    end in
  let output :=
    match DomainResult.status result with
    | REGISTERED =>
        let registrar_detail :=
          if opt_bool (DomainResult.registrar result)
          then ["Registrar: " ++ opt_str (DomainResult.registrar result)] else [] in
        let expiration_detail :=
          if opt_bool (DomainResult.expiration result)
          then ["Expires: " ++ opt_str (DomainResult.expiration result)] else [] in
        let details := (registrar_detail ++ expiration_detail)%list in
        match details with
        | [] => output
        | _ => output ++ String LF "    " ++ join " | " details
        end
    | _ => output
    end in
  match DomainResult.status result with
  | UNKNOWN =>
      if opt_bool (DomainResult.error result)
      then output ++ String LF "    Error: " ++ opt_str (DomainResult.error result)
      else output
  | _ => output
  end.

(** [line.startswith("#")]. *)
Definition starts_with_hash (line : string) : bool :=
  match line with
  | String "#" _ => true
  | _ => false
  end.

(** The comprehension of cli.py, line 191, over the lines of a file. *)
Definition file_domains (lines : list string) : list string :=
  map str_strip
      (filter (λ line, str_strip line ≠ "" ∧ starts_with_hash line = false) lines).

(** cli.py, lines 184-198.  [read_lines item] is [Some lines] when [item]
    is the path of a file that could be read, and [None] when it is not a
    file or reading it raised; in both of the latter cases the item counts
    as a domain name. *)
Definition collect_domains (read_lines : string → option (list string))
    (items : list string) : list string :=
  foldl (λ domains item,
           match read_lines item with
           | Some lines => (domains ++ file_domains lines)%list
           | None => (domains ++ [item])%list
           end)
        [] items.

Definition status_str (s : status) : string :=
  match s with
  | AVAILABLE => "AVAILABLE"
  | REGISTERED => "REGISTERED"
  | UNKNOWN => "UNKNOWN"
  end.

Definition opt_json (o : option string) : pyval :=
  match o with
  | Some s => PStr s
  | None => PNone
  end.

(** cli.py, lines 214-218: the prices found on the results, by domain
    name; a later result overwrites an earlier one of the same name. *)
Definition extract_pricing_info (include_pricing : bool) (results : list DomainResult.t)
    : gmap string DomainPrice.t :=
  if include_pricing then
    foldl (λ pricing_info result,
             match DomainResult._pricing_info result with
             | Some price => <[DomainResult.domain result := price]> pricing_info
             | None => pricing_info
             end)
          ∅ results
  else ∅.

(** cli.py, lines 237-245. *)
Definition pricing_json (price : DomainPrice.t) : pyval :=
  PDict [("price_cents", PInt (DomainPrice.price_cents price));
         ("price_dollars", PFloat (price_dollars price));
         ("currency", PStr (DomainPrice.currency price));
         ("category", PStr (DomainPrice.category price));
         ("is_bundled", PBool (DomainPrice.is_bundled price));
         ("is_recommended", PBool (DomainPrice.is_recommended price));
         ("is_premium", PBool (DomainPrice.is_premium price))].

(** cli.py, lines 225-247: the object built for one result. *)
Definition result_json (pricing_info : gmap string DomainPrice.t)
    (result : DomainResult.t) : pyval :=
  let result_dict :=
    [("domain", PStr (DomainResult.domain result));
     ("status", PStr (status_str (DomainResult.status result)));
     ("registrar", opt_json (DomainResult.registrar result));
     ("expiration", opt_json (DomainResult.expiration result));
     ("creation", opt_json (DomainResult.creation result));
     ("error", opt_json (DomainResult.error result))] in
  match pricing_info !! DomainResult.domain result with
  | Some price => PDict (result_dict ++ [("pricing", pricing_json price)])%list
  | None => PDict result_dict
  end.

(** cli.py, lines 213-247: the list handed to [json.dumps]. *)
Definition json_results (include_pricing : bool) (results : list DomainResult.t)
    : list pyval :=
  map (result_json (extract_pricing_info include_pricing results)) results.

End display.

Section run_checks.
Context `{PyStr}.
Context (config : Config).
Context (net : nat → fetch_outcome).
Context (set_iter : gset string → list string).
Context (lookup : nat → string → lookup_outcome).

(** cli.py, lines 208-211: one domain takes the single-domain path. *)
Definition run_checks_results (domains : list string) (include_pricing : bool)
    : M (list DomainResult.t) :=
  match domains with
  | [domain] =>
      result <- check_single_domain config net lookup domain include_pricing ;;
      ret [result]
  | _ => check_multiple_domains config net set_iter lookup domains include_pricing
  end.

End run_checks.

(** ** A concrete runtime for the examples

    Amounts with two decimals stand in for floats: the number [x] is kept
    as the integer [100 * x], so [PFloat 977] reads 9.77. *)

#[local] Instance hundredths : PyFloat := {|
  float := Z;
  float_mul_int x n := x * n;
  int_of_float x := Return (Z.quot x 100);
  bool_of_float x := negb (bool_decide (x = 0))
|}.

Definition ascii_lower (c : Ascii.ascii) : Ascii.ascii :=
  let n := Ascii.nat_of_ascii c in
  if bool_decide (65 ≤ n ≤ 90)%nat then Ascii.ascii_of_nat (n + 32) else c.

Fixpoint lower_ascii (s : string) : string :=
  match s with
  | EmptyString => EmptyString
  | String c s' => String (ascii_lower c) (lower_ascii s')
  end.

Fixpoint digits (acc : Z) (s : string) : option Z :=
  match s with
  | EmptyString => Some acc
  | String c s' =>
      let n := Ascii.nat_of_ascii c in
      if bool_decide (48 ≤ n ≤ 57)%nat then digits (10 * acc + Z.of_nat (n - 48)) s'
      else None
  end.

(** Plain decimal literals with an optional sign; the blanks and
    underscores that [int] also accepts do not occur in the examples, nor
    does an error list that is not a string. *)
Definition int_of_decimal (s : string) : outcome Z :=
  let bad := Raise (Exc ValueError "invalid literal for int() with base 10") in
  let unsigned s := match s with EmptyString => None | _ => digits 0 s end in
  match s with
  | String "-" s' => match unsigned s' with Some z => Return (- z) | None => bad end
  | String "+" s' => match unsigned s' with Some z => Return z | None => bad end
  | _ => match unsigned s with Some z => Return z | None => bad end
  end.

#[local] Instance plain_strings : PyStr := {|
  str_lower := lower_ascii;
  int_of_str := int_of_decimal;
  str_of v := match v with PStr s => s | _ => "..." end
|}.

Definition thresholds : Config :=
  {| pricing := {| bundled_max_cents := 500;
                   recommended_max_cents := 1500;
                   premium_flag_above_cents := 3000 |} |}.

(** A catalogue of two TLDs: [com] at 9.77 without a renewal price, [io]
    at 45.00 with a renewal price of 50.00. *)
Definition com_entry : list (string * pyval) :=
  [("tld", PStr "com"); ("price", PFloat 977)].

Definition io_entry : list (string * pyval) :=
  [("tld", PStr "io"); ("price", PFloat 4500); ("renewal_price", PFloat 5000)].

Definition catalogue : pyval :=
  PDict [("success", PBool true);
         ("result", PList [PDict com_entry; PDict io_entry])].

(** An endpoint that always serves [catalogue]. *)
Definition catalogue_net : nat → fetch_outcome := λ _, Payload catalogue.

Definition com_price : DomainPrice.t :=
  DomainPrice.mk ".com" "com" 977 "USD" false false true (Some 97700).

(** Five domains over the two TLDs [com] and [io]. *)
Definition five_domains : list string :=
  ["a.com"; "b.com"; "c.io"; "d.IO"; "e.com"].

Definition three_domains : list string := ["a.com"; "b.io"; "c.com"].

(** An endpoint whose first answer is a network error and which serves
    [catalogue] from then on. *)
Definition flaky_net : nat → fetch_outcome :=
  λ n, match n with
       | O => TransportError "connection reset"
       | S _ => Payload catalogue
       end.

(** A registration service that knows no domain. *)
Definition nothing_registered : nat → string → lookup_outcome := λ _ _, NoRecord.

(** A registration service that has a record for the third and the
    fourth name it is asked about, the two [io] names of [five_domains]. *)
Definition registered_io : nat → string → lookup_outcome :=
  λ i _, match i with
         | 2%nat | 3%nat => Registration (Some "Example Registrar") None None
         | _ => NoRecord
         end.

(** A registration service that knows no domain and whose answers time
    out after the first. *)
Definition times_out_after_first : nat → string → lookup_outcome :=
  λ i _, match i with
         | O => NoRecord
         | S _ => LookupFailure "timeout"
         end.

(** ** Vocabulary of the statements *)

(** How one call for [tld] may change the cache: a price that comes back
    is stored under [tld]; nothing else is written. *)
Definition cache_after (tld : string) (self : CloudflarePricing)
    (r : outcome (option DomainPrice.t)) (self' : CloudflarePricing) : Prop :=
  match r with
  | Return (Some p) => _price_cache self' = <[tld := p]> (_price_cache self)
  | _ => _price_cache self' = _price_cache self
  end.

(** The fetch failed: the request or its status check raised, the body
    is not JSON, the decoded body is not an object, or its ["success"]
    member is missing or false. *)
Definition fetch_failed `{PyFloat} (answer : fetch_outcome) : bool :=
  match answer with
  | TransportError _ | StatusError _ | InvalidJson _ => true
  | Payload (PDict d) =>
      negb (py_bool (default PNone (dict_lookup "success" d)))
  | Payload _ => true
  end.

(** A TLD price bound to one domain, as lines 142-148 and 182-188 build it. *)
Definition project_price (config : Config) (domain : string) (p : DomainPrice.t)
    : DomainPrice.t :=
  DomainPrice.new config domain (DomainPrice.tld p) (DomainPrice.price_cents p)
    (DomainPrice.currency p) (DomainPrice.annual_renewal_cents p).

(** What one pass of the loop over the TLDs leaves in [pricing_results],
    given the answer of [get_tld_pricing]. *)
Definition record_price (pricing_results : gmap string DomainPrice.t) (tld : string)
    (answer : outcome (option DomainPrice.t)) : gmap string DomainPrice.t :=
  match answer with
  | Return (Some p) => <[tld := p]> pricing_results
  | _ => pricing_results
  end.

(** Two results that agree on the six fields the checker fills in. *)
Definition same_result (r r' : DomainResult.t) : Prop :=
  DomainResult.domain r = DomainResult.domain r'
  ∧ DomainResult.status r = DomainResult.status r'
  ∧ DomainResult.registrar r = DomainResult.registrar r'
  ∧ DomainResult.expiration r = DomainResult.expiration r'
  ∧ DomainResult.creation r = DomainResult.creation r'
  ∧ DomainResult.error r = DomainResult.error r'.

(** The prices a batch run has at hand when it merges: the map that
    [get_batch_pricing] returned for the available domains, and no price
    at all when pricing is off, nothing is available or the call raised. *)
Definition prices_of_run `{PyStr} (config : Config) (net : nat → fetch_outcome)
    (set_iter : gset string → list string) (lookup : nat → string → lookup_outcome)
    (domains : list string) (include_pricing : bool) (self : CloudflarePricing)
    : gmap string DomainPrice.t :=
  if include_pricing then
    match available_of (check_domains lookup domains) with
    | [] => ∅
    | available_domains =>
        match fst (get_batch_pricing config net set_iter available_domains self) with
        | Return pricing_info => pricing_info
        | Raise _ => ∅
        end
    end
  else ∅.

(** A cache entry as [get_tld_pricing] writes it under [key]: it names
    the TLD, its domain is the TLD with a leading dot, the currency is the
    default, a renewal amount is present and the flags are those of the
    thresholds. *)
Definition price_wf (config : Config) (key : string) (p : DomainPrice.t) : Prop :=
  DomainPrice.tld p = key
  ∧ DomainPrice.domain p = "." ++ key
  ∧ DomainPrice.currency p = "USD"
  ∧ is_Some (DomainPrice.annual_renewal_cents p)
  ∧ DomainPrice.__post_init__ config p = p.

Definition cache_wf (config : Config) (cache : gmap string DomainPrice.t) : Prop :=
  ∀ k p, cache !! k = Some p → price_wf config k p.

(** A catalogue item that is an object and does not name [tld]: the scan
    steps over it. *)
Definition other_entry `{PyFloat} (tld : string) (item : pyval) : bool :=
  match item with
  | PDict d => negb (py_eq_str (default PNone (dict_lookup "tld" d)) tld)
  | _ => false
  end.

(** A catalogue item that is no object at all. *)
Definition not_an_object `{PyFloat} (item : pyval) : bool :=
  match item with
  | PDict _ => false
  | _ => true
  end.

(** The endpoint answers with an object that reports success and whose
    ["result"] member, an empty list if missing, iterates as [items]. *)
Definition serves `{PyFloat} (answer : fetch_outcome) (items : list pyval) : Prop :=
  ∃ body,
    answer = Payload (PDict body)
    ∧ py_bool (default PNone (dict_lookup "success" body)) = true
    ∧ py_iter (default (PList []) (dict_lookup "result" body)) = Return items.

(** The client after one more request, the cache untouched. *)
Definition after_request (self : CloudflarePricing) : CloudflarePricing :=
  {| _price_cache := _price_cache self; sent := S (sent self) |}.

(** A catalogue that lists [com] only after an item that is no object. *)
Definition broken_catalogue : pyval :=
  PDict [("success", PBool true);
         ("result", PList [PDict io_entry; PStr "n/a"; PDict com_entry])].

Definition broken_net : nat → fetch_outcome := λ _, Payload broken_catalogue.

(** A body whose ["result"] is an object, not a list. *)
Definition result_object_net : nat → fetch_outcome :=
  λ _, Payload (PDict [("success", PBool true); ("result", PDict [])]).

(** A body whose ["success"] is the string "false" and whose one entry
    has the boolean [true] for a price. *)
Definition boolean_price_net : nat → fetch_outcome :=
  λ _, Payload (PDict [("success", PStr "false");
                       ("result", PList [PDict [("tld", PStr "com");
                                                ("price", PBool true)]])]).

(** An entry that names [dev] and gives no price. *)
Definition unpriced_entry : list (string * pyval) := [("tld", PStr "dev")].

Definition unpriced_net : nat → fetch_outcome :=
  λ _, Payload (PDict [("success", PBool true);
                       ("result", PList [PDict com_entry; PDict unpriced_entry])]).

(** The domains of the items whose price is of the given category, in
    the order of the items. *)
Definition in_category (category : string) (items : list (string * DomainPrice.t))
    : list string :=
  map fst (filter (λ item, DomainPrice.category item.2 = category) items).

(** The tiers from cheapest to dearest. *)
Definition tier_rank (category : string) : nat :=
  if bool_decide (category = "bundled") then 0
  else if bool_decide (category = "recommended") then 1
  else if bool_decide (category = "standard") then 2
  else 3.

(** Blanks of the ASCII range, as [str.strip] removes them. *)
Definition is_blank (c : Ascii.ascii) : bool :=
  let n := Ascii.nat_of_ascii c in
  bool_decide (n = 32 ∨ 9 ≤ n ≤ 13 ∨ 28 ≤ n ≤ 31)%nat.

Fixpoint lstrip (s : string) : string :=
  match s with
  | String c s' => if is_blank c then lstrip s' else s
  | EmptyString => EmptyString
  end.

Fixpoint rstrip (s : string) : string :=
  match s with
  | String c s' =>
      match rstrip s' with
      | EmptyString => if is_blank c then EmptyString else String c EmptyString
      | rest => String c rest
      end
  | EmptyString => EmptyString
  end.

(** The display primitives of the examples: amounts stay in hundredths,
    are rendered with two decimals when they are not negative, and
    strings of ASCII characters are stripped. *)
#[local] Instance plain_display : PyDisplay := {|
  dollars_of_cents c := c;
  format_2f x :=
    pretty (x `div` 100) ++ "."
      ++ pretty ((x `mod` 100) `div` 10) ++ pretty (x `mod` 10);
  str_strip s := rstrip (lstrip s)
|}.

(** A list of names with a comment, a blank line and an indented comment. *)
Definition names_file : list string :=
  [String "#" (String " " (String "m" (String "y" (String LF EmptyString))));
   String "a" (String "." (String "i" (String "o" (String LF EmptyString))));
   String LF EmptyString;
   String " " (String "#" (String "x" (String LF EmptyString)))].

(** The three kinds of result, each under the name [a.com]. *)
Definition registered_result : DomainResult.t :=
  DomainResult.mk "a.com" REGISTERED (Some "Example Registrar") (Some "2030-01-01")
    None None None.

Definition priced_unknown_result : DomainResult.t :=
  DomainResult.mk "a.com" UNKNOWN None None None (Some "timeout") (Some com_price).

(** The price on the last of the results that bear the name [d] and
    carry a price. *)
Definition last_price_named (d : string) (results : list DomainResult.t)
    : option DomainPrice.t :=
  last (omap (λ r, if bool_decide (DomainResult.domain r = d)
                   then DomainResult._pricing_info r else None) results).

Definition io_price : DomainPrice.t :=
  DomainPrice.mk ".io" "io" 4500 "USD" true false false (Some 5000).

Definition two_domains : list string := ["a.com"; "b.io"].

(** The client once [com] has been priced from [catalogue]. *)
Definition warm_client : CloudflarePricing :=
  {| _price_cache := {["com" := com_price]}; sent := 1 |}.

(** The names counted on their own text, without the program's split:
    whether a string has a dot, and what follows its last dot (the whole
    string when it has none). *)
Fixpoint has_dot (s : string) : bool :=
  match s with
  | EmptyString => false
  | String c s' => bool_decide (c = "."%char) || has_dot s'
  end.

Fixpoint after_last_dot (s : string) : string :=
  match s with
  | EmptyString => EmptyString
  | String c s' =>
      if has_dot s' then after_last_dot s'
      else if bool_decide (c = "."%char) then s'
      else s
  end.

(** The lower-cased TLD of a domain name. *)
Definition lowercased_tld `{PyStr} (domain : string) : string :=
  after_last_dot (str_lower domain).

(** The distinct lower-cased TLDs among the domains, each listed once. *)
Definition distinct_tlds `{PyStr} (domains : list string) : list string :=
  remove_dups (map lowercased_tld domains).

(** Of those, the ones that the cache does not hold. *)
Definition distinct_uncached_tlds `{PyStr} (cache : gmap string DomainPrice.t)
    (domains : list string) : list string :=
  remove_dups (filter (λ tld, cache !! tld = None) (map lowercased_tld domains)).

(** The domains for which the registration service finds no record, the
    [i]-th lookup being made for the [i]-th domain; they are the ones the
    checker reports AVAILABLE. *)
Fixpoint names_without_record (lookup : nat → string → lookup_outcome)
    (domains : list string) : list string :=
  match domains with
  | [] => []
  | domain :: rest =>
      match lookup 0%nat domain with
      | NoRecord => domain :: names_without_record (λ i, lookup (S i)) rest
      | _ => names_without_record (λ i, lookup (S i)) rest
      end
  end.

(** * Properties *)

(** ** One call of [get_tld_pricing] *)

Section tld_pricing_facts.
Context `{PyStr}.
Context (config : Config) (net : nat → fetch_outcome).

Lemma scan_result_step tld items self :
  ∃ r self', scan_result config tld items self = (r, self')
             ∧ sent self' = sent self
             ∧ cache_after tld self r self'.
Proof.
  induction items as [| pricing_info rest IH]; simpl.
  - by eexists _, _.
  - unfold bind, lift.
    destruct (py_get pricing_info "tld" PNone) as [t | e]; [| by eexists _, _].
    destruct (py_eq_str t tld); [| exact IH].
    destruct (entry_price config tld pricing_info) as [p | e]; by eexists _, _.
Qed.

Lemma fetch_tld_step tld self :
  ∃ r self', fetch_tld config net tld self = (r, self')
             ∧ sent self' = S (sent self)
             ∧ cache_after tld self r self'.
Proof.
  unfold fetch_tld, bind, lift, raise, fetch_catalogue.
  destruct (net (sent self)) as [msg | msg | msg | data]; try by eexists _, _.
  destruct (py_get data "success" PNone) as [success | e]; [| by eexists _, _].
  destruct (py_bool success); simpl.
  - destruct (py_get data "result" (PList [])) as [result | e]; [| by eexists _, _].
    destruct (py_iter result) as [items | e]; [| by eexists _, _].
    match goal with
    | |- context [scan_result _ _ _ ?s] =>
        destruct (scan_result_step tld items s) as (r & self' & -> & Hsent & Hcache)
    end.
    by exists r, self'.
  - destruct (py_get data "errors" (PStr "Unknown error")); by eexists _, _.
Qed.

Lemma wrap_error_raises {A} e self :
  ∃ msg, wrap_error (A := A) e self = (Raise (Exc PricingError msg), self).
Proof. unfold wrap_error, raise. destruct (is_HTTPError e); by eexists. Qed.

Lemma get_tld_pricing_hit tld self cached :
  _price_cache self !! tld = Some cached →
  get_tld_pricing config net tld self = (Return (Some cached), self).
Proof. intros Hhit. unfold get_tld_pricing. by rewrite Hhit. Qed.

Lemma get_tld_pricing_miss tld self :
  _price_cache self !! tld = None →
  ∃ r self', get_tld_pricing config net tld self = (r, self')
             ∧ sent self' = S (sent self)
             ∧ cache_after tld self r self'
             ∧ (∀ e, r = Raise e → exc_class e = PricingError).
Proof.
  intros Hmiss. unfold get_tld_pricing, try_except. rewrite Hmiss.
  destruct (fetch_tld_step tld self) as (r & self' & -> & Hsent & Hcache).
  destruct r as [v | e].
  - exists (Return v), self'. by split_and!.
  - destruct (wrap_error_raises (A := option DomainPrice.t) e self') as [msg ->].
    exists (Raise (Exc PricingError msg)), self'.
    split_and!; [done | done | exact Hcache |].
    by intros ? [= <-].
Qed.

(** Whatever the cache holds, a call raises nothing but [PricingError],
    writes at most the entry of its own TLD and sends at most one request. *)
Lemma get_tld_pricing_step tld self :
  ∃ r self', get_tld_pricing config net tld self = (r, self')
             ∧ (sent self ≤ sent self' ≤ S (sent self))%nat
             ∧ (∀ k, k ≠ tld → _price_cache self' !! k = _price_cache self !! k)
             ∧ (∀ p, r = Return (Some p) → _price_cache self' !! tld = Some p)
             ∧ (∀ e, r = Raise e → exc_class e = PricingError).
Proof.
  destruct (_price_cache self !! tld) as [cached |] eqn:Hc.
  - exists (Return (Some cached)), self.
    rewrite (get_tld_pricing_hit _ _ _ Hc).
    split_and!; try done; try lia. by intros ? [= <-].
  - destruct (get_tld_pricing_miss tld self Hc) as (r & self' & Heq & Hsent & Hcache & Hexc).
    exists r, self'. split_and!; try done; try lia.
    + intros k Hk. destruct r as [[p |] | e]; simpl in Hcache; rewrite Hcache; [| done..].
      by rewrite lookup_insert_ne.
    + intros p ->. simpl in Hcache. rewrite Hcache. apply lookup_insert_eq.
Qed.

(** C7, as amended.  When the fetch that a call makes fails in one of
    these ways: the request or its status check raises, the body is not
    JSON, the decoded body is not an object, or its ["success"] member is
    missing or false, then [get_tld_pricing] raises [PricingError] and
    returns no value.  And whatever the endpoint answers, a call raises no
    exception of another class. *)
Theorem fetch_failure_raises_PricingError tld self :
  (_price_cache self !! tld = None →
   fetch_failed (net (sent self)) = true →
   ∃ msg, fst (get_tld_pricing config net tld self) = Raise (Exc PricingError msg))
  ∧ (∀ e, fst (get_tld_pricing config net tld self) = Raise e →
          exc_class e = PricingError).
Proof.
  split.
  2: { destruct (get_tld_pricing_step tld self) as (r & self' & -> & _ & _ & _ & Hexc).
       exact Hexc. }
  intros Hmiss Hfail.
  unfold get_tld_pricing. rewrite Hmiss.
  unfold try_except, fetch_tld, bind, lift, raise, fetch_catalogue.
  destruct (net (sent self)) as [msg | msg | msg | data]; simpl;
    try (unfold wrap_error, raise; simpl; by eexists).
  destruct data as [| b | z | x | s | l | d]; simpl in *;
    try (unfold wrap_error, raise; simpl; by eexists).
  apply negb_true_iff in Hfail. rewrite Hfail. simpl.
  unfold wrap_error, raise; simpl; by eexists.
Qed.

(** C2, as amended.  When the first of two consecutive calls for a TLD
    returns a price, the second returns the same price from the cache and
    leaves the client as it was, so that at most one request is sent in
    all.  When the first call returns no price or raises, nothing is
    cached and each of the two calls sends a request. *)
Theorem second_call_hits_cache tld self r1 self1 :
  get_tld_pricing config net tld self = (r1, self1) →
  (∀ p, r1 = Return (Some p) →
        get_tld_pricing config net tld self1 = (Return (Some p), self1)
        ∧ (sent self1 ≤ S (sent self))%nat)
  ∧ ((∀ p, r1 ≠ Return (Some p)) →
     sent self1 = S (sent self)
     ∧ sent (snd (get_tld_pricing config net tld self1)) = S (S (sent self))).
Proof.
  intros Hfirst.
  destruct (get_tld_pricing_step tld self) as (r & self' & Heq & Hsent & _ & Hstored & _).
  rewrite Hfirst in Heq. injection Heq as <- <-.
  split.
  - intros p ->. split; [| lia].
    apply get_tld_pricing_hit. by apply Hstored.
  - intros Hnone.
    destruct (_price_cache self !! tld) as [cached |] eqn:Hc.
    { rewrite (get_tld_pricing_hit _ _ _ Hc) in Hfirst.
      injection Hfirst as <- <-. by destruct (Hnone cached). }
    destruct (get_tld_pricing_miss tld self Hc) as (r & self' & Heq & Hs1 & Hcache & _).
    rewrite Hfirst in Heq. injection Heq as <- <-.
    split; [done |].
    assert (_price_cache self1 !! tld = None) as Hc1.
    { destruct r1 as [[p |] | e]; simpl in Hcache; [by destruct (Hnone p) | |];
        by rewrite Hcache. }
    destruct (get_tld_pricing_miss tld self1 Hc1) as (r2 & self2 & -> & Hs2 & _).
    simpl. lia.
Qed.

(** C9.  For a catalogue entry whose price converts to [price_cents]:
    without a ["renewal_price"] member the [DomainPrice] built for the
    entry has [annual_renewal_cents] equal to [100 * price_cents]; with
    one, [annual_renewal_cents] is [int(renewal_price * 100)]. *)
Theorem renewal_default_scaled_again tld d price_cents :
  cents_of (default (PInt 0) (dict_lookup "price" d)) = Return price_cents →
  (dict_lookup "renewal_price" d = None →
   entry_price config tld (PDict d) =
     Return (DomainPrice.new config ("." ++ tld) tld price_cents "USD"
               (Some (100 * price_cents))))
  ∧ (∀ v renewal_cents,
       dict_lookup "renewal_price" d = Some v →
       cents_of v = Return renewal_cents →
       entry_price config tld (PDict d) =
         Return (DomainPrice.new config ("." ++ tld) tld price_cents "USD"
                   (Some renewal_cents))).
Proof.
  intros Hprice. unfold entry_price. simpl. rewrite Hprice. simpl.
  split.
  - intros ->. simpl. do 3 f_equal. lia.
  - intros v renewal_cents -> Hrenewal. simpl. by rewrite Hrenewal.
Qed.

(** The scan returns the price built from the first entry that names the
    TLD, and stores it. *)
Lemma scan_result_first_match tld d rest p self :
  dict_lookup "tld" d = Some (PStr tld) →
  entry_price config tld (PDict d) = Return p →
  scan_result config tld (PDict d :: rest) self =
    (Return (Some p), {| _price_cache := <[tld := p]> (_price_cache self);
                         sent := sent self |}).
Proof.
  intros Htld Hprice. simpl. unfold bind, lift, cache_store, ret. simpl.
  rewrite Htld. simpl. rewrite bool_decide_eq_true_2 by done.
  by rewrite Hprice.
Qed.

End tld_pricing_facts.

(** ** Tier categorisation *)

Section categorisation.
Context (config : Config).

Local Abbreviation bundled_max := (bundled_max_cents (pricing config)).
Local Abbreviation recommended_max := (recommended_max_cents (pricing config)).
Local Abbreviation premium_flag := (premium_flag_above_cents (pricing config)).

Lemma post_init_flags (self : DomainPrice.t) :
  let p := DomainPrice.__post_init__ config self in
  DomainPrice.is_bundled p = bool_decide (DomainPrice.price_cents self <= bundled_max)
  ∧ DomainPrice.is_recommended p
    = bool_decide (DomainPrice.price_cents self <= recommended_max)
  ∧ DomainPrice.is_premium p = bool_decide (premium_flag <= DomainPrice.price_cents self)
  ∧ DomainPrice.price_cents p = DomainPrice.price_cents self.
Proof. done. Qed.

(** C5.  Whatever the price and the thresholds, the category of a
    constructed [DomainPrice] is the one value picked by the chain:
    "bundled" when the price is at most [bundled_max_cents]; otherwise
    "recommended" when it is at most [recommended_max_cents]; otherwise
    "premium" when it is at least [premium_flag_above_cents]; otherwise
    "standard". *)
Theorem category_precedence (self : DomainPrice.t) :
  DomainPrice.category (DomainPrice.__post_init__ config self) =
    if bool_decide (DomainPrice.price_cents self <= bundled_max) then "bundled"
    else if bool_decide (DomainPrice.price_cents self <= recommended_max) then "recommended"
    else if bool_decide (premium_flag <= DomainPrice.price_cents self) then "premium"
    else "standard".
Proof.
  unfold DomainPrice.category.
  destruct (post_init_flags self) as (-> & -> & -> & _).
  reflexivity.
Qed.

(** C6, as amended.  A price above both [premium_flag_above_cents] and
    [bundled_max_cents] is "premium" only when it is also above
    [recommended_max_cents]; when it is at most [recommended_max_cents]
    the recommended match wins and the category is "recommended". *)
Theorem premium_only_above_recommended (self : DomainPrice.t) :
  premium_flag < DomainPrice.price_cents self →
  bundled_max < DomainPrice.price_cents self →
  DomainPrice.category (DomainPrice.__post_init__ config self) =
    if bool_decide (DomainPrice.price_cents self <= recommended_max)
    then "recommended" else "premium".
Proof.
  intros Hprem Hbund.
  unfold DomainPrice.category.
  destruct (post_init_flags self) as (-> & -> & -> & _).
  rewrite (bool_decide_eq_false_2 (_ <= bundled_max)) by lia.
  case_bool_decide; [done |].
  by rewrite bool_decide_eq_true_2 by lia.
Qed.

(** C10.  The three flags of a constructed [DomainPrice] are three
    separate comparisons of the price with the thresholds and may hold
    together: with [bundled_max_cents <= recommended_max_cents] a bundled
    price is also recommended, and a price between
    [premium_flag_above_cents] and [recommended_max_cents] is both
    recommended and premium. *)
Theorem flags_not_exclusive (self : DomainPrice.t) :
  let p := DomainPrice.__post_init__ config self in
  (DomainPrice.is_bundled p = bool_decide (DomainPrice.price_cents p <= bundled_max)
   ∧ DomainPrice.is_recommended p = bool_decide (DomainPrice.price_cents p <= recommended_max)
   ∧ DomainPrice.is_premium p = bool_decide (premium_flag <= DomainPrice.price_cents p))
  ∧ (bundled_max <= recommended_max →
     DomainPrice.is_bundled p = true → DomainPrice.is_recommended p = true)
  ∧ (premium_flag <= DomainPrice.price_cents p <= recommended_max →
     DomainPrice.is_recommended p = true ∧ DomainPrice.is_premium p = true).
Proof.
  intros p. subst p.
  destruct (post_init_flags self) as (-> & -> & -> & ->).
  split_and!; try done.
  - rewrite !bool_decide_eq_true. lia.
  - intros [? ?]. rewrite !bool_decide_eq_true. lia.
Qed.

End categorisation.

(** The scenario of the specification: thresholds 500 / 1500 / 3000. *)
Example category_scenario :
  map (λ c, DomainPrice.category (DomainPrice.new thresholds "a.com" "com" c "USD" None))
      [400; 1000; 3500; 2000]
  = ["bundled"; "recommended"; "premium"; "standard"].
Proof. reflexivity. Qed.

(** C6, counterexample.  With thresholds 500 / 5000 / 3000 a price of 3500
    cents is above the premium flag and above the bundled maximum, and
    its category is "recommended", not "premium". *)
Lemma premium_override_counterexample :
  let config := {| pricing := {| bundled_max_cents := 500;
                                 recommended_max_cents := 5000;
                                 premium_flag_above_cents := 3000 |} |} in
  let p := DomainPrice.new config "a.com" "com" 3500 "USD" None in
  premium_flag_above_cents (pricing config) < DomainPrice.price_cents p
  ∧ bundled_max_cents (pricing config) < DomainPrice.price_cents p
  ∧ DomainPrice.price_cents p <= recommended_max_cents (pricing config)
  ∧ DomainPrice.category p = "recommended"
  ∧ DomainPrice.category p ≠ "premium".
Proof. cbn. split_and!; [lia | lia | lia | reflexivity | discriminate]. Qed.

Lemma premium_only_above_recommended_witness :
  DomainPrice.category
    (DomainPrice.__post_init__ thresholds
       (DomainPrice.mk "a.com" "com" 3500 "USD" false false false None))
  = "premium".
Proof.
  apply (premium_only_above_recommended thresholds
           (DomainPrice.mk "a.com" "com" 3500 "USD" false false false None));
    simpl; lia.
Defined.

Lemma flags_not_exclusive_witness :
  let config := {| pricing := {| bundled_max_cents := 500;
                                 recommended_max_cents := 5000;
                                 premium_flag_above_cents := 3000 |} |} in
  DomainPrice.is_recommended (DomainPrice.new config "a.com" "com" 400 "USD" None) = true
  ∧ DomainPrice.is_recommended (DomainPrice.new config "b.io" "io" 3500 "USD" None) = true
  ∧ DomainPrice.is_premium (DomainPrice.new config "b.io" "io" 3500 "USD" None) = true.
Proof.
  intros config. split.
  - apply (proj1 (proj2 (flags_not_exclusive config
             (DomainPrice.mk "a.com" "com" 400 "USD" false false false None))));
      [simpl; lia | reflexivity].
  - apply (proj2 (proj2 (flags_not_exclusive config
             (DomainPrice.mk "b.io" "io" 3500 "USD" false false false None)))).
    simpl; lia.
Defined.

(** C2, counterexample.  [zzz] is not in the catalogue: the first call
    returns no price, and after the second call two requests have been
    sent, not one. *)
Lemma absent_tld_fetched_twice_counterexample :
  let first := get_tld_pricing thresholds catalogue_net "zzz" pricing_client in
  let second := get_tld_pricing thresholds catalogue_net "zzz" (snd first) in
  fst first = Return None
  ∧ fst second = Return None
  ∧ sent pricing_client = 0%nat
  ∧ sent (snd second) = 2%nat.
Proof. vm_compute. done. Qed.

Lemma second_call_hits_cache_witness :
  let first := get_tld_pricing thresholds catalogue_net "com" pricing_client in
  get_tld_pricing thresholds catalogue_net "com" (snd first)
    = (Return (Some com_price), snd first)
  ∧ (sent (snd first) ≤ 1)%nat.
Proof.
  intros first.
  apply (proj1 (second_call_hits_cache thresholds catalogue_net "com" pricing_client
                  (fst first) (snd first) (surjective_pairing first))).
  vm_compute. reflexivity.
Defined.

Lemma fetch_failure_raises_PricingError_witness :
  ∃ msg,
    fst (get_tld_pricing thresholds (λ _, StatusError "503 Service Unavailable")
           "com" pricing_client)
    = Raise (Exc PricingError msg).
Proof.
  apply (proj1 (fetch_failure_raises_PricingError thresholds
                  (λ _, StatusError "503 Service Unavailable") "com" pricing_client));
    reflexivity.
Defined.

(** C7, counterexample.  Three bodies that report success and are
    malformed all the same, and for each the call returns a value instead
    of raising: a list with an item that is no object behind the entry
    asked for gives that entry's price; a ["result"] that is an object
    instead of a list gives [None]; a price that is the boolean [true],
    under a ["success"] that is the string "false", gives 100 cents. *)
Lemma malformed_payload_returns_value_counterexample :
  fst (get_tld_pricing thresholds broken_net "io" pricing_client)
    = Return (Some io_price)
  ∧ fst (get_tld_pricing thresholds result_object_net "com" pricing_client)
    = Return None
  ∧ fst (get_tld_pricing thresholds boolean_price_net "com" pricing_client)
    = Return (Some (DomainPrice.new thresholds ".com" "com" 100 "USD" (Some 10000))).
Proof. split_and!; reflexivity. Qed.

Lemma renewal_default_scaled_again_witness :
  entry_price thresholds "com" (PDict com_entry)
  = Return (DomainPrice.new thresholds ".com" "com" 977 "USD" (Some (100 * 977)))
  ∧ entry_price thresholds "io" (PDict io_entry)
    = Return (DomainPrice.new thresholds ".io" "io" 4500 "USD" (Some 5000)).
Proof.
  split.
  - apply (proj1 (renewal_default_scaled_again thresholds "com" com_entry 977 eq_refl)).
    reflexivity.
  - apply (proj2 (renewal_default_scaled_again thresholds "io" io_entry 4500 eq_refl)
             (@PFloat hundredths 5000) 5000); reflexivity.
Defined.

(** ** The loop over the TLDs and the projection onto the domains *)

Section batch_facts.
Context `{PyStr}.
Context (config : Config) (net : nat → fetch_outcome).

Lemma price_one_tld_step acc tld self :
  price_one_tld config net acc tld self =
    (Return (record_price acc tld (fst (get_tld_pricing config net tld self))),
     snd (get_tld_pricing config net tld self)).
Proof.
  unfold price_one_tld, try_except, bind, ret, raise.
  destruct (get_tld_pricing_step config net tld self)
    as (r & self' & -> & _ & _ & _ & Hexc).
  destruct r as [[p |] | e]; simpl; try done.
  unfold is_PricingError. by rewrite (Hexc e eq_refl).
Qed.

Lemma price_tlds_cons acc tld rest self :
  price_tlds config net acc (tld :: rest) self =
    price_tlds config net
      (record_price acc tld (fst (get_tld_pricing config net tld self)))
      rest (snd (get_tld_pricing config net tld self)).
Proof. simpl. unfold bind at 1. by rewrite price_one_tld_step. Qed.

(** The loop never raises. *)
Lemma price_tlds_returns tlds acc self :
  ∃ acc' self', price_tlds config net acc tlds self = (Return acc', self').
Proof.
  revert acc self. induction tlds as [| tld rest IH]; intros acc self.
  - by eexists _, _.
  - rewrite price_tlds_cons. apply IH.
Qed.

Lemma price_tlds_app pre post acc self :
  ∃ acc1 self1,
    price_tlds config net acc pre self = (Return acc1, self1)
    ∧ price_tlds config net acc (pre ++ post) self = price_tlds config net acc1 post self1.
Proof.
  revert acc self. induction pre as [| tld pre IH]; intros acc self.
  - by eexists _, _.
  - rewrite <- app_comm_cons, !price_tlds_cons. apply IH.
Qed.

(** Only the TLDs of the loop are written to [pricing_results]. *)
Lemma price_tlds_other tlds acc self acc' self' k :
  price_tlds config net acc tlds self = (Return acc', self') →
  k ∉ tlds → acc' !! k = acc !! k.
Proof.
  revert acc self. induction tlds as [| tld rest IH]; intros acc self Hrun Hk.
  - by injection Hrun as <- <-.
  - rewrite price_tlds_cons in Hrun.
    apply not_elem_of_cons in Hk as [Hne Hk].
    rewrite (IH _ _ Hrun Hk).
    unfold record_price.
    destruct (fst (get_tld_pricing config net tld self)) as [[p |] | e]; try done.
    by rewrite lookup_insert_ne.
Qed.

(** What the loop holds for a TLD is decided by the one call made for it. *)
Lemma price_tlds_at pre tld post acc self acc' self' :
  NoDup (pre ++ tld :: post) →
  price_tlds config net acc (pre ++ tld :: post) self = (Return acc', self') →
  acc' !! tld =
    match fst (get_tld_pricing config net tld (snd (price_tlds config net acc pre self))) with
    | Return (Some p) => Some p
    | _ => acc !! tld
    end.
Proof.
  intros Hnd Hrun.
  apply NoDup_app in Hnd as (_ & Hpre & Hnd).
  apply NoDup_cons in Hnd as [Hpost _].
  destruct (price_tlds_app pre (tld :: post) acc self) as (acc1 & self1 & Hpre_run & Happ).
  rewrite Happ, price_tlds_cons in Hrun.
  rewrite (price_tlds_other _ _ _ _ _ _ Hrun Hpost).
  rewrite Hpre_run. simpl.
  assert (acc1 !! tld = acc !! tld) as Hacc1.
  { apply (price_tlds_other _ _ _ _ _ _ Hpre_run).
    intros Hin. by apply (Hpre tld Hin), elem_of_cons; left. }
  unfold record_price.
  destruct (fst (get_tld_pricing config net tld self1)) as [[p |] | e]; try done.
  apply lookup_insert_eq.
Qed.

(** Starting with none of the TLDs cached, every pass sends one request. *)
Lemma price_tlds_sent tlds acc self acc' self' :
  NoDup tlds →
  (∀ tld, tld ∈ tlds → _price_cache self !! tld = None) →
  price_tlds config net acc tlds self = (Return acc', self') →
  sent self' = (sent self + length tlds)%nat.
Proof.
  revert acc self. induction tlds as [| tld rest IH]; intros acc self Hnd Hmiss Hrun.
  - injection Hrun as <- <-. simpl. lia.
  - apply NoDup_cons in Hnd as [Hfresh Hnd].
    rewrite price_tlds_cons in Hrun.
    destruct (get_tld_pricing_miss config net tld self) as (r & self1 & Heq & Hsent & _).
    { apply Hmiss. by left. }
    destruct (get_tld_pricing_step config net tld self)
      as (r' & self1' & Heq' & _ & Hkeep & _).
    rewrite Heq in Heq'. injection Heq' as <- <-.
    rewrite Heq in Hrun. simpl in Hrun.
    assert (∀ k, k ∈ rest → _price_cache self1 !! k = None) as Hmiss1.
    { intros k Hk. rewrite Hkeep.
      - apply Hmiss. by right.
      - intros ->. done. }
    rewrite (IH _ _ Hnd Hmiss1 Hrun). simpl. lia.
Qed.

Lemma map_back_lookup pricing_results domains domain_pricing d :
  map_back config pricing_results domains domain_pricing !! d =
    if decide (d ∈ domains) then
      match pricing_results !! tld_of d with
      | Some p => Some (project_price config d p)
      | None => domain_pricing !! d
      end
    else domain_pricing !! d.
Proof.
  revert domain_pricing.
  induction domains as [| domain rest IH]; intros domain_pricing; cbn [map_back].
  - case_decide as Hin; [by apply elem_of_nil in Hin | done].
  - assert (d ≠ domain → (d ∈ domain :: rest) ↔ d ∈ rest) as Hmem.
    { intros Hne. rewrite elem_of_cons. split; [by intros [? | ?] | by right]. }
    destruct (pricing_results !! tld_of domain) as [p |] eqn:Hp; rewrite IH.
    + destruct (decide (d = domain)) as [-> | Hne].
      * rewrite Hp, lookup_insert_eq.
        rewrite (decide_True (P := domain ∈ domain :: rest)) by left.
        by case_decide.
      * rewrite lookup_insert_ne by done.
        symmetry. apply decide_ext. by apply Hmem.
    + destruct (decide (d = domain)) as [-> | Hne].
      * rewrite Hp.
        rewrite (decide_True (P := domain ∈ domain :: rest)) by left.
        by case_decide.
      * symmetry. apply decide_ext. by apply Hmem.
Qed.

End batch_facts.

(** ** The TLD of a name, and counting distinct TLDs *)

Lemma split_no_dot s : has_dot s = false → split "."%char s = [s].
Proof.
  induction s as [| c s IH]; simpl; [done |].
  intros [Hc Hs]%orb_false_iff. rewrite Hc, (IH Hs). done.
Qed.

Lemma split_with_dot s :
  has_dot s = true → ∃ h x t, split "."%char s = h :: x :: t.
Proof.
  induction s as [| c s IH]; simpl; [done |].
  destruct (has_dot s) eqn:Hs.
  - intros _. destruct (IH eq_refl) as (h & x & t & ->).
    case_bool_decide; by eexists _, _, _.
  - rewrite orb_false_r. intros Hc. rewrite Hc, (split_no_dot s Hs).
    by eexists _, _, _.
Qed.

(** The last piece of the program's split is the text after the last dot. *)
Lemma last_split_after_last_dot s :
  List.last (split "."%char s) "" = after_last_dot s.
Proof.
  induction s as [| c s IH]; [done |].
  cbn [split after_last_dot].
  destruct (has_dot s) eqn:Hs.
  - destruct (split_with_dot s Hs) as (h & x & t & Hsplit).
    rewrite Hsplit in *. rewrite <- IH. by case_bool_decide.
  - rewrite (split_no_dot s Hs). by case_bool_decide.
Qed.

Lemma tld_of_lowercased `{PyStr} domain : tld_of domain = lowercased_tld domain.
Proof. apply last_split_after_last_dot. Qed.

Lemma size_list_to_set_remove_dups (l : list string) :
  size (list_to_set (C := gset string) l) = length (remove_dups l).
Proof.
  rewrite <- (size_list_to_set (C := gset string) (remove_dups l))
    by apply NoDup_remove_dups.
  f_equal. apply set_eq. intros x.
  by rewrite !elem_of_list_to_set, elem_of_remove_dups.
Qed.

Lemma size_tld_set `{PyStr} domains :
  size (tld_set domains) = length (distinct_tlds domains).
Proof.
  unfold tld_set, distinct_tlds. rewrite size_list_to_set_remove_dups.
  do 2 f_equal. apply map_ext. intros d. apply tld_of_lowercased.
Qed.

Lemma length_remove_dups_le (l : list string) :
  (length (remove_dups l) ≤ length l)%nat.
Proof. induction l as [| x l IH]; simpl; [done |]. case_decide; simpl; lia. Qed.

Lemma size_uncached_tlds `{PyStr} (cache : gmap string DomainPrice.t) domains :
  size (tld_set domains ∖ dom cache) = length (distinct_uncached_tlds cache domains).
Proof.
  unfold tld_set, distinct_uncached_tlds.
  rewrite <- size_list_to_set_remove_dups.
  f_equal. apply set_eq. intros x.
  rewrite elem_of_difference, !elem_of_list_to_set, list_elem_of_filter,
    elem_of_dom, <- eq_None_not_Some.
  rewrite (map_ext tld_of lowercased_tld) by apply tld_of_lowercased.
  split; intros [? ?]; by split.
Qed.

(** The domains the program selects for pricing are those without a
    registration record. *)
Lemma available_of_names lookup domains :
  available_of (check_domains lookup domains) = names_without_record lookup domains.
Proof.
  revert lookup. induction domains as [| domain rest IH]; intros lookup; [done |].
  unfold available_of, check_domains in *. cbn [imap names_without_record].
  rewrite filter_cons.
  specialize (IH (λ i, lookup (S i))). unfold compose.
  destruct (lookup 0%nat domain); simpl; try case_decide; try done; simpl;
    by rewrite <- IH.
Qed.

(** ** Batch pricing and the merged report *)

Section run_facts.
Context `{PyStr}.
Context (config : Config) (net : nat → fetch_outcome).
Context (set_iter : gset string → list string).
Context (lookup : nat → string → lookup_outcome).

Lemma batch_pricing_run domains self :
  ∃ pricing_results self',
    price_tlds config net ∅ (set_iter (tld_set domains)) self
      = (Return pricing_results, self')
    ∧ batch_pricing config net set_iter domains self
      = (Return (map_back config pricing_results domains ∅), self').
Proof.
  destruct (price_tlds_returns config net (set_iter (tld_set domains)) ∅ self)
    as (pricing_results & self' & Hloop).
  exists pricing_results, self'. split; [done |].
  unfold batch_pricing, bind, ret. by rewrite Hloop.
Qed.

Lemma set_iter_NoDup s : set_iter s ≡ₚ elements s → NoDup (set_iter s).
Proof. intros ->. apply NoDup_elements. Qed.

Lemma set_iter_length s : set_iter s ≡ₚ elements s → length (set_iter s) = size s.
Proof. by intros ->. Qed.

(** C3.  From an empty cache, a batch-pricing call sends as many requests
    as there are distinct lower-cased TLDs among its domains, the TLD of
    a name being what follows its last dot once the name is lower-cased;
    that is never more than the number of domains, and is fewer as soon
    as two domains share a TLD. *)
Theorem one_fetch_per_distinct_tld domains self :
  (∀ s, set_iter s ≡ₚ elements s) →
  _price_cache self = ∅ →
  sent (snd (batch_pricing config net set_iter domains self))
    = (sent self + length (distinct_tlds domains))%nat
  ∧ (length (distinct_tlds domains) ≤ length domains)%nat.
Proof.
  intros Horder Hempty. split.
  - destruct (batch_pricing_run domains self) as (pricing_results & self' & Hloop & ->).
    simpl. rewrite <- size_tld_set, <- (set_iter_length _ (Horder _)).
    apply (price_tlds_sent config net _ ∅ self pricing_results self'); [| | done].
    + apply set_iter_NoDup, Horder.
    + intros tld _. by rewrite Hempty, lookup_empty.
  - unfold distinct_tlds.
    etrans; [apply length_remove_dups_le |]. by rewrite length_map.
Qed.

Lemma check_domains_lookup domains i :
  check_domains lookup domains !! i
    = (λ d, check_domain_from (lookup i d) d) <$> domains !! i.
Proof. unfold check_domains. apply list_lookup_imap. Qed.

Lemma check_domain_from_domain answer d :
  DomainResult.domain (check_domain_from answer d) = d.
Proof. by destruct answer. Qed.

Lemma check_domain_from_unpriced answer d :
  DomainResult._pricing_info (check_domain_from answer d) = None.
Proof. by destruct answer. Qed.

Lemma attach_pricing_same prices r : same_result (attach_pricing prices r) r.
Proof.
  unfold attach_pricing, same_result.
  by destruct (prices !! DomainResult.domain r).
Qed.

Lemma attach_pricing_info prices r :
  DomainResult._pricing_info r = None →
  DomainResult._pricing_info (attach_pricing prices r) = prices !! DomainResult.domain r.
Proof.
  intros Hnone. unfold attach_pricing.
  by destruct (prices !! DomainResult.domain r).
Qed.

Lemma attach_nothing results :
  map (attach_pricing ∅) results = results.
Proof.
  induction results as [| r results IH]; simpl; [done |].
  rewrite IH. unfold attach_pricing. by rewrite lookup_empty.
Qed.

(** The batch check always returns, and what it returns is the list of
    availability results with the prices of the run attached by name. *)
Lemma check_multiple_domains_run domains include_pricing self :
  ∃ self',
    check_multiple_domains config net set_iter lookup domains include_pricing self
    = (Return (map (attach_pricing
                      (prices_of_run config net set_iter lookup domains include_pricing self))
                   (check_domains lookup domains)),
       self').
Proof.
  unfold check_multiple_domains, prices_of_run.
  destruct include_pricing; [| exists self; by rewrite attach_nothing].
  destruct (available_of (check_domains lookup domains)) as [| d ds] eqn:Havail.
  { exists self. by rewrite attach_nothing. }
  unfold get_batch_pricing, try_except, bind, ret.
  destruct (batch_pricing_run (d :: ds) self) as (pricing_results & self' & _ & ->).
  by exists self'.
Qed.

(** C1.  The batch check returns a report with one entry per input
    domain, in input order: the [i]-th entry carries the availability
    result of the [i]-th domain, and with it the price that the run holds
    for that domain, if it holds one. *)
Theorem report_follows_input domains include_pricing self :
  ∃ report self',
    check_multiple_domains config net set_iter lookup domains include_pricing self
      = (Return report, self')
    ∧ length report = length domains
    ∧ map DomainResult.domain report = domains
    ∧ ∀ i d, domains !! i = Some d →
        ∃ r, report !! i = Some r
             ∧ same_result r (check_domain_from (lookup i d) d)
             ∧ DomainResult._pricing_info r
               = prices_of_run config net set_iter lookup domains include_pricing self !! d.
Proof.
  destruct (check_multiple_domains_run domains include_pricing self) as [self' Hrun].
  eexists _, self'. split; [exact Hrun |].
  set (prices := prices_of_run _ _ _ _ _ _ _).
  split_and!.
  - rewrite length_map. apply length_imap.
  - apply list_eq. intros i.
    rewrite !list_lookup_fmap, check_domains_lookup.
    destruct (domains !! i) as [d |]; simpl; [| done].
    f_equal. rewrite (proj1 (attach_pricing_same _ _)).
    apply check_domain_from_domain.
  - intros i d Hd.
    exists (attach_pricing prices (check_domain_from (lookup i d) d)).
    split_and!.
    + by rewrite list_lookup_fmap, check_domains_lookup, Hd.
    + apply attach_pricing_same.
    + rewrite attach_pricing_info by apply check_domain_from_unpriced.
      by rewrite check_domain_from_domain.
Qed.

Lemma check_domains_unpriced domains r :
  r ∈ check_domains lookup domains → DomainResult._pricing_info r = None.
Proof.
  intros (i & Hi)%list_elem_of_lookup.
  rewrite check_domains_lookup in Hi.
  destruct (domains !! i) as [d |]; simplify_eq/=.
  apply check_domain_from_unpriced.
Qed.

(** The prices of a run are keyed by available domains only. *)
Lemma prices_of_run_keys domains include_pricing self d :
  is_Some (prices_of_run config net set_iter lookup domains include_pricing self !! d) →
  d ∈ available_of (check_domains lookup domains).
Proof.
  unfold prices_of_run.
  destruct include_pricing; [| rewrite lookup_empty; by intros [? ?]].
  destruct (available_of (check_domains lookup domains)) as [| a ds] eqn:Havail.
  { rewrite lookup_empty. by intros [? ?]. }
  unfold get_batch_pricing.
  destruct (batch_pricing_run (a :: ds) self) as (pricing_results & self' & _ & ->).
  cbn [fst]. rewrite map_back_lookup.
  case_decide; [done |]. rewrite lookup_empty. by intros [? ?].
Qed.

(** With pricing on, the prices of a run are the projection of what the
    loop over the TLDs of the available domains has collected. *)
Lemma prices_of_run_batch domains self :
  (∀ s, set_iter s ≡ₚ elements s) →
  ∃ pricing_results self',
    price_tlds config net ∅
      (set_iter (tld_set (available_of (check_domains lookup domains)))) self
      = (Return pricing_results, self')
    ∧ prices_of_run config net set_iter lookup domains true self
      = map_back config pricing_results (available_of (check_domains lookup domains)) ∅.
Proof.
  intros Horder. unfold prices_of_run.
  destruct (available_of (check_domains lookup domains)) as [| a ds] eqn:Havail.
  - assert (set_iter (tld_set []) = []) as ->.
    { apply Permutation_nil_r. rewrite Horder. unfold tld_set. simpl.
      by rewrite elements_empty. }
    by exists ∅, self.
  - unfold get_batch_pricing.
    destruct (batch_pricing_run (a :: ds) self) as (pricing_results & self' & Hloop & ->).
    by exists pricing_results, self'.
Qed.

(** C4.  A batch run with pricing always returns a report, and the report
    holds the availability result of every input domain.  For each TLD of
    the available domains, take the call that the loop makes for it: if
    that call raises, no entry of this TLD carries a price; if it returns
    a price, every available entry of this TLD carries that price bound
    to its domain.  A failure for one TLD thus leaves the prices of the
    other TLDs in place and never reaches the caller. *)
Theorem batch_survives_pricing_failure domains self :
  (∀ s, set_iter s ≡ₚ elements s) →
  ∃ report self',
    check_multiple_domains config net set_iter lookup domains true self
      = (Return report, self')
    ∧ Forall2 same_result report (check_domains lookup domains)
    ∧ ∀ pre tld post,
        set_iter (tld_set (available_of (check_domains lookup domains)))
          = (pre ++ tld :: post)%list →
        let answer :=
          fst (get_tld_pricing config net tld
                 (snd (price_tlds config net ∅ pre self))) in
        (∀ e, answer = Raise e →
              ∀ r, r ∈ report → tld_of (DomainResult.domain r) = tld →
                   DomainResult._pricing_info r = None)
        ∧ (∀ p, answer = Return (Some p) →
                ∀ r, r ∈ report → DomainResult.status r = AVAILABLE →
                     tld_of (DomainResult.domain r) = tld →
                     DomainResult._pricing_info r
                       = Some (project_price config (DomainResult.domain r) p)).
Proof.
  intros Horder.
  destruct (check_multiple_domains_run domains true self) as [self' Hrun].
  eexists _, self'. split; [exact Hrun |].
  destruct (prices_of_run_batch domains self Horder)
    as (pricing_results & self1 & Hloop & ->).
  set (results := check_domains lookup domains) in *.
  set (prices := map_back _ _ _ _).
  split.
  { apply Forall2_fmap_l, Forall_Forall2_diag, Forall_forall.
    intros r _. apply attach_pricing_same. }
  intros pre tld post Hsplit answer.
  assert (pricing_results !! tld =
            match answer with Return (Some p) => Some p | _ => None end) as Hheld.
  { rewrite Hsplit in Hloop.
    rewrite (price_tlds_at config net pre tld post ∅ self pricing_results self1);
      [| rewrite <- Hsplit; apply set_iter_NoDup, Horder | done].
    fold answer. rewrite lookup_empty. by destruct answer as [[p |] | e]. }
  assert (∀ r, r ∈ map (attach_pricing prices) results →
            ∃ r0, r0 ∈ results ∧ same_result r r0
                  ∧ DomainResult._pricing_info r = prices !! DomainResult.domain r) as Hentry.
  { intros r (r0 & -> & Hr0)%list_elem_of_fmap.
    exists r0. split_and!; [done | apply attach_pricing_same |].
    rewrite attach_pricing_info by apply (check_domains_unpriced domains), Hr0.
    by rewrite (proj1 (attach_pricing_same prices r0)). }
  split.
  - intros e Hanswer r Hr Htld.
    destruct (Hentry r Hr) as (r0 & _ & _ & ->).
    unfold prices. rewrite map_back_lookup, Htld, Hheld, Hanswer, lookup_empty.
    by case_decide.
  - intros p Hanswer r Hr Havail Htld.
    destruct (Hentry r Hr) as (r0 & Hr0 & (Hdom & Hstatus & _) & ->).
    unfold prices. rewrite map_back_lookup, Htld, Hheld, Hanswer.
    rewrite decide_True; [done |].
    unfold available_of. apply list_elem_of_fmap.
    exists r0. split; [done |].
    apply list_elem_of_filter. split; [congruence | done].
Qed.

(** The single-domain path asks for a price only when the result is
    AVAILABLE. *)
Lemma check_single_domain_unavailable domain include_pricing self :
  DomainResult.status (check_domain lookup domain) ≠ AVAILABLE →
  check_single_domain config net lookup domain include_pricing self
    = (Return (check_domain lookup domain), self).
Proof.
  intros Hstatus. unfold check_single_domain.
  rewrite bool_decide_eq_false_2 by done.
  by rewrite andb_false_r.
Qed.

(** An entry gets no price unless some available entry has its name. *)
Lemma unpriced_without_available_namesake domains include_pricing self report self' r :
  check_multiple_domains config net set_iter lookup domains include_pricing self
    = (Return report, self') →
  r ∈ report →
  (∀ r', r' ∈ check_domains lookup domains →
         DomainResult.domain r' = DomainResult.domain r →
         DomainResult.status r' ≠ AVAILABLE) →
  DomainResult._pricing_info r = None.
Proof.
  intros Hrun Hr Hnone.
  destruct (check_multiple_domains_run domains include_pricing self) as [self'' Hrun'].
  rewrite Hrun in Hrun'. injection Hrun' as -> _.
  apply list_elem_of_fmap in Hr as (r0 & -> & Hr0).
  rewrite attach_pricing_info by apply (check_domains_unpriced domains), Hr0.
  apply eq_None_not_Some. intros Hsome.
  apply prices_of_run_keys in Hsome.
  unfold available_of in Hsome.
  apply list_elem_of_fmap in Hsome as (r1 & Hname & Hr1).
  apply list_elem_of_filter in Hr1 as [Havail Hr1].
  apply (Hnone r1 Hr1); [| done].
  by rewrite <- Hname, (proj1 (attach_pricing_same _ r0)).
Qed.

End run_facts.

(** ** The scenarios of the specification, run on the model *)

(** Five domains over two TLDs: two requests. *)
Example five_domains_two_fetches :
  length five_domains = 5%nat
  ∧ size (tld_set five_domains) = 2%nat
  ∧ sent (snd (batch_pricing thresholds catalogue_net elements five_domains pricing_client))
    = 2%nat.
Proof. vm_compute. done. Qed.

Lemma one_fetch_per_distinct_tld_witness :
  length five_domains = 5%nat
  ∧ distinct_tlds five_domains = ["io"; "com"]
  ∧ sent pricing_client = 0%nat
  ∧ sent (snd (batch_pricing thresholds catalogue_net elements five_domains pricing_client))
    = 2%nat.
Proof.
  split_and!; [reflexivity | by vm_compute | reflexivity |].
  rewrite (proj1 (one_fetch_per_distinct_tld thresholds catalogue_net elements
                    five_domains pricing_client
                    (λ s, reflexivity (elements s)) eq_refl)).
  by vm_compute.
Defined.

(** Three available domains, the request for [com] fails and the one for
    [io] succeeds: three entries, a price on [b.io] alone. *)
Example one_failed_fetch_of_three :
  let run := check_multiple_domains thresholds flaky_net elements nothing_registered
               three_domains true pricing_client in
  elements (tld_set three_domains) = ["com"; "io"]
  ∧ ∃ report, fst run = Return report
      ∧ map DomainResult.domain report = three_domains
      ∧ map (λ r, DomainPrice.price_cents <$> DomainResult._pricing_info r) report
        = [None; Some 4500; None].
Proof. split; [by vm_compute |]. eexists. vm_compute. done. Qed.

Lemma report_follows_input_witness :
  ∃ report self',
    check_multiple_domains thresholds catalogue_net elements nothing_registered
      three_domains true pricing_client = (Return report, self')
    ∧ length report = 3%nat
    ∧ ∃ r, report !! 1%nat = Some r
           ∧ same_result r (check_domain_from NoRecord "b.io")
           ∧ DomainResult._pricing_info r
             = prices_of_run thresholds catalogue_net elements nothing_registered
                 three_domains true pricing_client !! "b.io".
Proof.
  destruct (report_follows_input thresholds catalogue_net elements nothing_registered
              three_domains true pricing_client)
    as (report & self' & Hrun & Hlen & _ & Hentries).
  exists report, self'.
  split_and!; [exact Hrun | exact Hlen | exact (Hentries 1%nat "b.io" eq_refl)].
Defined.

Lemma batch_survives_pricing_failure_witness :
  ∃ report self',
    check_multiple_domains thresholds flaky_net elements nothing_registered
      three_domains true pricing_client = (Return report, self')
    ∧ Forall2 same_result report (check_domains nothing_registered three_domains)
    ∧ ∀ pre tld post,
        elements (tld_set (available_of (check_domains nothing_registered three_domains)))
          = (pre ++ tld :: post)%list →
        let answer :=
          fst (get_tld_pricing thresholds flaky_net tld
                 (snd (price_tlds thresholds flaky_net ∅ pre pricing_client))) in
        (∀ e, answer = Raise e →
              ∀ r, r ∈ report → tld_of (DomainResult.domain r) = tld →
                   DomainResult._pricing_info r = None)
        ∧ (∀ p, answer = Return (Some p) →
                ∀ r, r ∈ report → DomainResult.status r = AVAILABLE →
                     tld_of (DomainResult.domain r) = tld →
                     DomainResult._pricing_info r
                       = Some (project_price thresholds (DomainResult.domain r) p)).
Proof.
  apply (batch_survives_pricing_failure thresholds flaky_net elements
           nothing_registered three_domains pricing_client).
  intros s. reflexivity.
Defined.

(** C8, failing input.  The domain [a.com] is given twice; its first
    lookup finds it available and its second lookup times out.  The
    second entry of the report has status UNKNOWN and carries the price
    that was fetched for the first. *)
Theorem unknown_namesake_gets_price :
  let run := check_multiple_domains thresholds catalogue_net elements
               times_out_after_first ["a.com"; "a.com"] true pricing_client in
  ∃ first second,
    fst run = Return [first; second]
    ∧ DomainResult.status first = AVAILABLE
    ∧ DomainResult.status second = UNKNOWN
    ∧ DomainPrice.price_cents <$> DomainResult._pricing_info second = Some 977.
Proof. eexists _, _. vm_compute. done. Qed.

(** * Further properties of the code *)

(** ** The catalogue scan of [get_tld_pricing] *)

Section scan_facts.
Context `{PyStr}.
Context (config : Config) (net : nat → fetch_outcome).

Lemma scan_result_skip tld pre rest self :
  Forall (λ item, other_entry tld item = true) pre →
  scan_result config tld (pre ++ rest) self = scan_result config tld rest self.
Proof.
  induction 1 as [| item pre Hitem _ IH]; [done |].
  destruct item as [| | | | | | d]; try done.
  simpl in *. unfold bind at 1, lift. simpl.
  apply negb_true_iff in Hitem. by rewrite Hitem.
Qed.

Lemma get_tld_pricing_scan tld self items :
  _price_cache self !! tld = None →
  serves (net (sent self)) items →
  get_tld_pricing config net tld self
    = try_except (scan_result config tld items) wrap_error (after_request self).
Proof.
  intros Hmiss (body & Hnet & Hsuccess & Hitems).
  unfold get_tld_pricing. rewrite Hmiss.
  unfold try_except, fetch_tld, bind, lift, fetch_catalogue.
  rewrite Hnet. simpl. rewrite Hsuccess. simpl. by rewrite Hitems.
Qed.

(** X1.  First match wins: when the catalogue is served and the first
    item that names the TLD converts to a price, that price is returned
    and cached after one request; the items behind it are not looked at,
    whatever they are. *)
Theorem first_match_wins tld self pre d post p :
  _price_cache self !! tld = None →
  serves (net (sent self)) (pre ++ PDict d :: post) →
  Forall (λ item, other_entry tld item = true) pre →
  dict_lookup "tld" d = Some (PStr tld) →
  entry_price config tld (PDict d) = Return p →
  get_tld_pricing config net tld self
    = (Return (Some p),
       {| _price_cache := <[tld := p]> (_price_cache self); sent := S (sent self) |}).
Proof.
  intros Hmiss Hserves Hpre Htld Hprice.
  rewrite (get_tld_pricing_scan _ _ _ Hmiss Hserves).
  unfold try_except. rewrite (scan_result_skip _ _ _ _ Hpre).
  by rewrite (scan_result_first_match config tld d post p _ Htld Hprice).
Qed.

(** X2.  A TLD that no item of the served catalogue names, a catalogue
    without a ["result"] member included, gives no price: the call
    returns [None] after one request and caches nothing. *)
Theorem absent_tld_returns_none tld self items :
  _price_cache self !! tld = None →
  serves (net (sent self)) items →
  Forall (λ item, other_entry tld item = true) items →
  get_tld_pricing config net tld self = (Return None, after_request self).
Proof.
  intros Hmiss Hserves Hitems.
  rewrite (get_tld_pricing_scan _ _ _ Hmiss Hserves).
  unfold try_except.
  rewrite <- (app_nil_r items), (scan_result_skip _ _ _ _ Hitems).
  done.
Qed.

(** X3.  An item that is not an object stops the scan: when such an item
    comes before any item naming the TLD, the call raises [PricingError]
    and caches nothing, even if the TLD is listed further on. *)
Theorem malformed_item_hides_later_entries tld self pre bad post :
  _price_cache self !! tld = None →
  serves (net (sent self)) (pre ++ bad :: post) →
  Forall (λ item, other_entry tld item = true) pre →
  not_an_object bad = true →
  ∃ msg, get_tld_pricing config net tld self
         = (Raise (Exc PricingError msg), after_request self).
Proof.
  intros Hmiss Hserves Hpre Hbad.
  rewrite (get_tld_pricing_scan _ _ _ Hmiss Hserves).
  unfold try_except. rewrite (scan_result_skip _ _ _ _ Hpre).
  destruct bad as [| b | z | x | s | l | d]; try done;
    simpl; unfold bind, lift; simpl; by eexists.
Qed.

(** X4.  A matching entry without a ["price"] member is priced at zero:
    with no renewal price either, the call returns a [DomainPrice] of 0
    cents with a renewal of 0 cents, not [None]. *)
Theorem missing_price_is_zero tld self pre d post :
  _price_cache self !! tld = None →
  serves (net (sent self)) (pre ++ PDict d :: post) →
  Forall (λ item, other_entry tld item = true) pre →
  dict_lookup "tld" d = Some (PStr tld) →
  dict_lookup "price" d = None →
  dict_lookup "renewal_price" d = None →
  fst (get_tld_pricing config net tld self)
    = Return (Some (DomainPrice.new config ("." ++ tld) tld 0 "USD" (Some 0))).
Proof.
  intros Hmiss Hserves Hpre Htld Hprice Hrenewal.
  rewrite (get_tld_pricing_scan _ _ _ Hmiss Hserves).
  unfold try_except. rewrite (scan_result_skip _ _ _ _ Hpre).
  rewrite (scan_result_first_match config tld d post
             (DomainPrice.new config ("." ++ tld) tld 0 "USD" (Some 0))); [done.. |].
  unfold entry_price. simpl. rewrite Hprice. simpl. by rewrite Hrenewal.
Qed.

End scan_facts.

(** ** What the cache holds *)

Section cache_facts.
Context `{PyStr}.
Context (config : Config) (net : nat → fetch_outcome).

Lemma entry_price_wf tld pricing_info p :
  entry_price config tld pricing_info = Return p → price_wf config tld p.
Proof.
  unfold entry_price.
  destruct (py_get pricing_info "price" (PInt 0)) as [price | e]; simpl; [| done].
  destruct (cents_of price) as [price_cents | e]; simpl; [| done].
  destruct (py_get pricing_info "renewal_price" (PInt price_cents)) as [renewal | e];
    simpl; [| done].
  destruct (cents_of renewal) as [renewal_cents | e]; simpl; [| done].
  intros [= <-]. by split_and!.
Qed.

Lemma scan_result_wf tld items self p self' :
  scan_result config tld items self = (Return (Some p), self') → price_wf config tld p.
Proof.
  induction items as [| pricing_info rest IH]; simpl; [done |].
  unfold bind, lift.
  destruct (py_get pricing_info "tld" PNone) as [t | e]; [| done].
  destruct (py_eq_str t tld); [| exact IH].
  destruct (entry_price config tld pricing_info) as [q | e] eqn:Hq; [| done].
  simpl. intros [= <- _]. by apply entry_price_wf in Hq.
Qed.

Lemma fetch_tld_wf tld self p self' :
  fetch_tld config net tld self = (Return (Some p), self') → price_wf config tld p.
Proof.
  unfold fetch_tld, bind, lift, raise, fetch_catalogue.
  destruct (net (sent self)) as [msg | msg | msg | data]; try done.
  destruct (py_get data "success" PNone) as [success | e]; [| done].
  destruct (py_bool success); simpl.
  - destruct (py_get data "result" (PList [])) as [result | e]; [| done].
    destruct (py_iter result) as [items | e]; [| done].
    apply scan_result_wf.
  - by destruct (py_get data "errors" (PStr "Unknown error")).
Qed.

Lemma get_tld_pricing_answer_wf tld self p :
  cache_wf config (_price_cache self) →
  fst (get_tld_pricing config net tld self) = Return (Some p) →
  price_wf config tld p.
Proof.
  intros Hwf. unfold get_tld_pricing.
  destruct (_price_cache self !! tld) as [cached |] eqn:Hc.
  - intros [= <-]. by apply Hwf.
  - unfold try_except.
    destruct (fetch_tld config net tld self) as [[v | e] self'] eqn:Hfetch.
    + simpl. intros [= ->]. by apply fetch_tld_wf in Hfetch.
    + destruct (wrap_error_raises (A := option DomainPrice.t) e self') as [msg ->].
      done.
Qed.

(** A call leaves every entry of the cache as it is. *)
Lemma get_tld_pricing_keeps tld self k q :
  _price_cache self !! k = Some q →
  _price_cache (snd (get_tld_pricing config net tld self)) !! k = Some q.
Proof.
  intros Hk.
  destruct (decide (k = tld)) as [-> | Hne].
  - by rewrite (get_tld_pricing_hit config net _ _ _ Hk).
  - destruct (get_tld_pricing_step config net tld self)
      as (r & self' & -> & _ & Hkeep & _).
    simpl. by rewrite Hkeep.
Qed.

Lemma get_tld_pricing_cache_wf tld self :
  cache_wf config (_price_cache self) →
  cache_wf config (_price_cache (snd (get_tld_pricing config net tld self))).
Proof.
  intros Hwf k q.
  pose proof (get_tld_pricing_answer_wf tld self) as Hanswer.
  destruct (get_tld_pricing_step config net tld self)
    as (r & self' & Heq & _ & Hkeep & Hstored & _).
  rewrite Heq in *. simpl in *.
  destruct (decide (k = tld)) as [-> | Hne]; [| rewrite Hkeep by done; apply Hwf].
  destruct (_price_cache self !! tld) as [cached |] eqn:Hc.
  - rewrite (get_tld_pricing_hit config net _ _ _ Hc) in Heq.
    injection Heq as <- <-. rewrite Hc. intros [= <-]. by apply Hwf.
  - destruct (get_tld_pricing_miss config net tld self Hc)
      as (r' & self'' & Heq' & _ & Hcache & _).
    rewrite Heq in Heq'. injection Heq' as <- <-.
    destruct r as [[p |] | e]; simpl in Hcache; rewrite Hcache.
    + rewrite lookup_insert_eq. intros [= <-]. by apply Hanswer.
    + by rewrite Hc.
    + by rewrite Hc.
Qed.

(** The cache after a call holds the TLD exactly when the call returned a
    price or the TLD was cached before. *)
Lemma get_tld_pricing_cached tld self :
  _price_cache (snd (get_tld_pricing config net tld self)) !! tld
    = match fst (get_tld_pricing config net tld self) with
      | Return (Some p) => Some p
      | _ => None
      end.
Proof.
  destruct (_price_cache self !! tld) as [cached |] eqn:Hc.
  - by rewrite (get_tld_pricing_hit config net _ _ _ Hc).
  - destruct (get_tld_pricing_miss config net tld self Hc)
      as (r & self' & -> & _ & Hcache & _).
    simpl. destruct r as [[p |] | e]; simpl in Hcache; rewrite Hcache; try done.
    apply lookup_insert_eq.
Qed.

Lemma price_tlds_keeps tlds acc self k q :
  _price_cache self !! k = Some q →
  _price_cache (snd (price_tlds config net acc tlds self)) !! k = Some q.
Proof.
  revert acc self. induction tlds as [| tld rest IH]; intros acc self Hk; [done |].
  rewrite price_tlds_cons. by apply IH, get_tld_pricing_keeps.
Qed.

Lemma price_tlds_cache_wf tlds acc self :
  cache_wf config (_price_cache self) →
  cache_wf config (_price_cache (snd (price_tlds config net acc tlds self))).
Proof.
  revert acc self. induction tlds as [| tld rest IH]; intros acc self Hwf; [done |].
  rewrite price_tlds_cons. by apply IH, get_tld_pricing_cache_wf.
Qed.

(** The loop writes the cache at its own TLDs only. *)
Lemma price_tlds_cache_other tlds acc self k :
  k ∉ tlds →
  _price_cache (snd (price_tlds config net acc tlds self)) !! k = _price_cache self !! k.
Proof.
  revert acc self. induction tlds as [| tld rest IH]; intros acc self Hk; [done |].
  apply not_elem_of_cons in Hk as [Hne Hk].
  rewrite price_tlds_cons, IH by done.
  destruct (get_tld_pricing_step config net tld self)
    as (r & self' & -> & _ & Hkeep & _).
  simpl. by apply Hkeep.
Qed.

(** What the loop has collected for one of its TLDs is what the cache
    holds for it afterwards. *)
Lemma price_tlds_held tlds acc self acc' self' tld :
  NoDup tlds →
  (∀ t, t ∈ tlds → acc !! t = None) →
  price_tlds config net acc tlds self = (Return acc', self') →
  tld ∈ tlds →
  acc' !! tld = _price_cache self' !! tld.
Proof.
  revert acc self.
  induction tlds as [| t rest IH]; intros acc self Hnd Hacc Hrun Hin.
  { by apply elem_of_nil in Hin. }
  apply NoDup_cons in Hnd as [Hfresh Hnd].
  pose proof Hrun as Hrun'.
  rewrite price_tlds_cons in Hrun.
  destruct (decide (tld = t)) as [-> | Hne].
  - rewrite (price_tlds_other _ _ _ _ _ _ _ _ Hrun Hfresh).
    replace self' with (snd (price_tlds config net acc (t :: rest) self))
      by by rewrite Hrun'.
    rewrite price_tlds_cons, price_tlds_cache_other by done.
    rewrite get_tld_pricing_cached. unfold record_price.
    destruct (fst (get_tld_pricing config net t self)) as [[p |] | e].
    + apply lookup_insert_eq.
    + apply Hacc. by left.
    + apply Hacc. by left.
  - apply elem_of_cons in Hin as [? | Hin]; [done |].
    apply (IH _ _ Hnd) with (2 := Hrun); [| done].
    intros k Hk. unfold record_price.
    destruct (fst (get_tld_pricing config net t self)) as [[p |] | e];
      try (apply Hacc; by right).
    rewrite lookup_insert_ne by (intros ->; done).
    apply Hacc. by right.
Qed.

End cache_facts.

(** ** Prices of single domains and of batches *)

Section price_facts.
Context `{PyStr}.
Context (config : Config) (net : nat → fetch_outcome).
Context (set_iter : gset string → list string).

Lemma get_domain_pricing_run domain self :
  get_domain_pricing config net domain self
    = (match fst (get_tld_pricing config net (tld_of domain) self) with
       | Return (Some q) => Return (Some (project_price config domain q))
       | Return None => Return None
       | Raise e => Raise e
       end,
       snd (get_tld_pricing config net (tld_of domain) self)).
Proof.
  unfold get_domain_pricing, bind, ret.
  by destruct (get_tld_pricing config net (tld_of domain) self) as [[[q |] | e] self'].
Qed.

(** X5.  A price for a full domain is the price the cache then holds for
    its lower-cased TLD, bound to the domain as it was written; no price
    means the TLD is not cached; and the only exception that escapes is
    [PricingError]. *)
Theorem domain_price_is_cached_tld_price domain self r self' :
  get_domain_pricing config net domain self = (r, self') →
  (∀ p, r = Return (Some p) →
        DomainPrice.domain p = domain
        ∧ ∃ q, _price_cache self' !! tld_of domain = Some q
               ∧ p = project_price config domain q)
  ∧ (r = Return None → _price_cache self' !! tld_of domain = None)
  ∧ (∀ e, r = Raise e → exc_class e = PricingError).
Proof.
  rewrite get_domain_pricing_run. intros [= <- <-].
  rewrite get_tld_pricing_cached.
  destruct (get_tld_pricing_step config net (tld_of domain) self)
    as (r & self' & -> & _ & _ & _ & Hexc).
  simpl. destruct r as [[q |] | e]; split_and!; try done;
    try (intros p [= <-]; split; [done | by exists q]);
    try (intros e' [= <-]; by apply Hexc).
Qed.

(** X6.  The cache only grows: an entry that is cached stays cached with
    the same price through any call for a TLD, for a domain or for a
    batch. *)
Theorem cache_never_forgets self k q :
  _price_cache self !! k = Some q →
  (∀ tld, _price_cache (snd (get_tld_pricing config net tld self)) !! k = Some q)
  ∧ (∀ domain, _price_cache (snd (get_domain_pricing config net domain self)) !! k = Some q)
  ∧ (∀ domains,
       _price_cache (snd (batch_pricing config net set_iter domains self)) !! k = Some q).
Proof.
  intros Hk. split_and!.
  - intros tld. by apply get_tld_pricing_keeps.
  - intros domain. rewrite get_domain_pricing_run. simpl.
    by apply get_tld_pricing_keeps.
  - intros domains.
    destruct (batch_pricing_run config net set_iter domains self)
      as (pricing_results & self' & Hloop & ->).
    simpl. replace self' with
      (snd (price_tlds config net ∅ (set_iter (tld_set domains)) self))
      by by rewrite Hloop.
    by apply price_tlds_keeps.
Qed.

Lemma price_tlds_results_wf tlds acc self acc' self' :
  cache_wf config (_price_cache self) →
  (∀ t q, acc !! t = Some q → price_wf config t q) →
  price_tlds config net acc tlds self = (Return acc', self') →
  ∀ t q, acc' !! t = Some q → price_wf config t q.
Proof.
  revert acc self. induction tlds as [| tld rest IH]; intros acc self Hwf Hacc Hrun.
  { by injection Hrun as <- <-. }
  rewrite price_tlds_cons in Hrun.
  apply (IH _ _ (get_tld_pricing_cache_wf config net tld self Hwf)) with (2 := Hrun).
  intros t q. unfold record_price.
  destruct (fst (get_tld_pricing config net tld self)) as [[p |] | e] eqn:Hanswer;
    try apply Hacc.
  destruct (decide (t = tld)) as [-> | Hne].
  - rewrite lookup_insert_eq. intros [= <-].
    by apply (get_tld_pricing_answer_wf config net tld self).
  - rewrite lookup_insert_ne by done. apply Hacc.
Qed.

(** X7.  Starting from a well-formed cache (an empty one is), a batch
    leaves the cache well-formed, and every price it returns is filed
    under a domain of the input, names that domain and its lower-cased
    TLD, is in USD, has a renewal amount and has the flags of the
    thresholds. *)
Theorem batch_prices_well_formed domains self m self' :
  cache_wf config (_price_cache self) →
  batch_pricing config net set_iter domains self = (Return m, self') →
  cache_wf config (_price_cache self')
  ∧ ∀ d p, m !! d = Some p →
      d ∈ domains
      ∧ DomainPrice.domain p = d
      ∧ DomainPrice.tld p = tld_of d
      ∧ DomainPrice.currency p = "USD"
      ∧ is_Some (DomainPrice.annual_renewal_cents p)
      ∧ DomainPrice.__post_init__ config p = p.
Proof.
  intros Hwf Hrun.
  destruct (batch_pricing_run config net set_iter domains self)
    as (pricing_results & self1 & Hloop & Hbatch).
  rewrite Hrun in Hbatch. injection Hbatch as -> ->.
  split.
  - replace self1 with
      (snd (price_tlds config net ∅ (set_iter (tld_set domains)) self))
      by by rewrite Hloop.
    by apply price_tlds_cache_wf.
  - intros d p. rewrite map_back_lookup.
    case_decide as Hin; [| by rewrite lookup_empty].
    destruct (pricing_results !! tld_of d) as [q |] eqn:Hq; [| by rewrite lookup_empty].
    intros [= <-].
    destruct (price_tlds_results_wf _ _ _ _ _ Hwf (λ t q, ltac:(by rewrite lookup_empty))
                Hloop _ _ Hq) as (Htld & _ & Hcur & Hren & _).
    by split_and!.
Qed.

Lemma set_iter_elem_of s t : set_iter s ≡ₚ elements s → t ∈ set_iter s ↔ t ∈ s.
Proof. intros ->. apply elem_of_elements. Qed.

Lemma tld_of_in_tld_set d domains : d ∈ domains → tld_of d ∈ tld_set domains.
Proof.
  intros Hd. unfold tld_set. apply elem_of_list_to_set, list_elem_of_fmap. by exists d.
Qed.

Lemma batch_returns_cached_prices_aux domains self :
  (∀ s, set_iter s ≡ₚ elements s) →
  ∃ m self',
    batch_pricing config net set_iter domains self = (Return m, self')
    ∧ ∀ d, m !! d = if decide (d ∈ domains)
                    then project_price config d <$> _price_cache self' !! tld_of d
                    else None.
Proof.
  intros Horder.
  destruct (batch_pricing_run config net set_iter domains self)
    as (pricing_results & self' & Hloop & ->).
  eexists _, _. split; [done |].
  intros d. rewrite map_back_lookup, lookup_empty.
  case_decide as Hin; [| done].
  rewrite (price_tlds_held config net _ _ _ _ _ (tld_of d)
             (set_iter_NoDup _ _ (Horder _)) (λ t _, lookup_empty t) Hloop).
  - by destruct (_price_cache self' !! tld_of d).
  - by apply set_iter_elem_of, tld_of_in_tld_set.
Qed.

(** X8.  A batch never raises, and what it returns is read off the cache
    it leaves behind: an input domain is priced exactly when its TLD is
    then cached, with that TLD price bound to the domain; nothing else is
    in the result.  Domains that share a TLD thus get the same amounts. *)
Theorem batch_returns_cached_prices domains self :
  (∀ s, set_iter s ≡ₚ elements s) →
  ∃ m self',
    batch_pricing config net set_iter domains self = (Return m, self')
    ∧ (∀ d, m !! d = if decide (d ∈ domains)
                     then project_price config d <$> _price_cache self' !! tld_of d
                     else None)
    ∧ (∀ d1 d2, d1 ∈ domains → d2 ∈ domains → tld_of d1 = tld_of d2 →
         DomainPrice.price_cents <$> m !! d1 = DomainPrice.price_cents <$> m !! d2
         ∧ DomainPrice.annual_renewal_cents <$> m !! d1
           = DomainPrice.annual_renewal_cents <$> m !! d2
         ∧ DomainPrice.category <$> m !! d1 = DomainPrice.category <$> m !! d2).
Proof.
  intros Horder.
  destruct (batch_returns_cached_prices_aux domains self Horder) as (m & self' & Hrun & Hm).
  exists m, self'. split_and!; [done | done |].
  intros d1 d2 Hd1 Hd2 Htld.
  rewrite !Hm, !decide_True, Htld by done.
  by destruct (_price_cache self' !! tld_of d2).
Qed.

End price_facts.

(** ** Requests of a batch on a warm cache *)

Section warm_cache_facts.
Context {float_ops : PyFloat} {str_ops : PyStr}.
Context (config : Config) (net : nat → fetch_outcome).
Context (set_iter : gset string → list string).

Lemma price_tlds_sent_uncached tlds acc self acc' self' :
  NoDup tlds →
  price_tlds config net acc tlds self = (Return acc', self') →
  sent self' = (sent self + size (list_to_set (C := gset string) tlds
                                   ∖ dom (_price_cache self)))%nat.
Proof.
  revert acc self. induction tlds as [| tld rest IH]; intros acc self Hnd Hrun.
  - injection Hrun as <- <-. simpl.
    rewrite empty_difference_L, size_empty. lia.
  - apply NoDup_cons in Hnd as [Hfresh Hnd].
    rewrite price_tlds_cons in Hrun.
    rewrite (IH _ _ Hnd Hrun). clear IH Hrun.
    destruct (_price_cache self !! tld) as [cached |] eqn:Hc.
    + rewrite (get_tld_pricing_hit config net _ _ _ Hc). simpl.
      f_equal. f_equal. apply set_eq. intros k.
      rewrite !elem_of_difference, elem_of_union, elem_of_singleton, !elem_of_dom.
      split; [intros [Hk Hnot]; split; [by right | done] |].
      intros [[-> | Hk] Hnot]; [| done].
      destruct Hnot. by rewrite Hc.
    + destruct (get_tld_pricing_miss config net tld self Hc)
        as (r & self1 & Heq & Hsent & _).
      destruct (get_tld_pricing_step config net tld self)
        as (r' & self1' & Heq' & _ & Hkeep & _).
      rewrite Heq in Heq'. injection Heq' as <- <-.
      rewrite Heq. simpl. rewrite Hsent.
      assert (list_to_set (C := gset string) rest ∖ dom (_price_cache self1)
              = list_to_set rest ∖ dom (_price_cache self)) as ->.
      { apply set_eq. intros k.
        rewrite !elem_of_difference, !elem_of_dom, elem_of_list_to_set.
        split; intros [Hk Hnot]; (split; [done |]);
          rewrite Hkeep in * by (intros ->; done); done. }
      assert (({[tld]} ∪ list_to_set rest) ∖ dom (_price_cache self)
              = {[tld]} ∪ (list_to_set (C := gset string) rest ∖ dom (_price_cache self)))
        as ->.
      { apply set_eq. intros k.
        rewrite !elem_of_difference, !elem_of_union, elem_of_difference,
          elem_of_singleton, elem_of_dom.
        split; [intros [[-> | Hk] Hnot]; [by left | by right] |].
        intros [-> | [Hk Hnot]]; [| by split; [right |]].
        split; [by left |]. rewrite Hc. by intros [? ?]. }
      rewrite (size_union {[tld]} (list_to_set rest ∖ dom (_price_cache self))).
      * rewrite size_singleton. lia.
      * apply disjoint_singleton_l.
        rewrite elem_of_difference, elem_of_list_to_set. by intros [? _].
Qed.

Lemma batch_pricing_sent_uncached domains self :
  (∀ s, set_iter s ≡ₚ elements s) →
  sent (snd (batch_pricing config net set_iter domains self))
    = (sent self + size (tld_set domains ∖ dom (_price_cache self)))%nat.
Proof.
  intros Horder.
  destruct (batch_pricing_run config net set_iter domains self)
    as (pricing_results & self' & Hloop & ->).
  simpl.
  rewrite (price_tlds_sent_uncached _ _ _ _ _ (set_iter_NoDup _ _ (Horder _)) Hloop).
  rewrite (Horder (tld_set domains)), list_to_set_elements_L. done.
Qed.

(** X9.  A batch sends one request for each distinct lower-cased TLD of
    its domains that the cache does not hold yet, and none for a TLD that
    is already cached; the TLD of a name is what follows its last dot
    once the name is lower-cased. *)
Theorem one_fetch_per_uncached_tld domains self :
  (∀ s, set_iter s ≡ₚ elements s) →
  sent (snd (batch_pricing config net set_iter domains self))
    = (sent self + length (distinct_uncached_tlds (_price_cache self) domains))%nat.
Proof.
  intros Horder.
  destruct (batch_pricing_run config net set_iter domains self)
    as (pricing_results & self' & Hloop & ->).
  cbn [snd].
  rewrite (price_tlds_sent_uncached _ _ _ _ _ (set_iter_NoDup _ _ (Horder _)) Hloop).
  rewrite (Horder (tld_set domains)), list_to_set_elements_L.
  by rewrite size_uncached_tlds.
Qed.

Lemma price_tlds_all_cached tlds acc self :
  (∀ t, t ∈ tlds → is_Some (_price_cache self !! t)) →
  snd (price_tlds config net acc tlds self) = self.
Proof.
  revert acc. induction tlds as [| tld rest IH]; intros acc Hall; [done |].
  rewrite price_tlds_cons.
  destruct (Hall tld) as [cached Hc]; [by left |].
  rewrite (get_tld_pricing_hit config net _ _ _ Hc). simpl.
  apply IH. intros t Ht. apply Hall. by right.
Qed.

(** X10.  Running a batch again: when the first run priced every one of
    its domains, a second run of the same batch on the client as the
    first left it sends no request, changes nothing and returns the same
    prices. *)
Theorem rerun_fully_priced_batch domains self m self' :
  (∀ s, set_iter s ≡ₚ elements s) →
  batch_pricing config net set_iter domains self = (Return m, self') →
  (∀ d, d ∈ domains → is_Some (m !! d)) →
  batch_pricing config net set_iter domains self' = (Return m, self').
Proof.
  intros Horder Hrun Hall.
  destruct (batch_returns_cached_prices_aux config net set_iter domains self Horder)
    as (m1 & self1 & Hrun1 & Hm).
  rewrite Hrun in Hrun1. injection Hrun1 as <- <-.
  destruct (batch_returns_cached_prices_aux config net set_iter domains self' Horder)
    as (m2 & self2 & Hrun2 & Hm2).
  assert (self2 = self') as ->.
  { destruct (batch_pricing_run config net set_iter domains self')
      as (pricing_results & self3 & Hloop & Hbatch).
    rewrite Hrun2 in Hbatch. injection Hbatch as _ ->.
    replace self3 with
      (snd (price_tlds config net ∅ (set_iter (tld_set domains)) self'))
      by by rewrite Hloop.
    apply price_tlds_all_cached.
    intros t Ht. apply set_iter_elem_of in Ht; [| done].
    unfold tld_set in Ht.
    apply elem_of_list_to_set, list_elem_of_fmap in Ht as (d & -> & Hd).
    specialize (Hall d Hd). rewrite Hm, decide_True in Hall by done.
    by apply fmap_is_Some in Hall. }
  rewrite Hrun2.
  assert (m2 = m) as ->; [| done].
  apply map_eq. intros d. by rewrite Hm, Hm2.
Qed.

End warm_cache_facts.

(** ** One domain, and none *)

Section small_batches.
Context {float_ops : PyFloat} {str_ops : PyStr}.
Context (config : Config) (net : nat → fetch_outcome).
Context (set_iter : gset string → list string).
Context (lookup : nat → string → lookup_outcome).

Lemma set_iter_singleton t :
  (∀ s, set_iter s ≡ₚ elements s) → set_iter {[t]} = [t].
Proof.
  intros Horder. apply Permutation_singleton_r.
  by rewrite Horder, elements_singleton.
Qed.

Lemma set_iter_empty :
  (∀ s, set_iter s ≡ₚ elements s) → set_iter ∅ = [].
Proof.
  intros Horder. apply Permutation_nil_r. by rewrite Horder, elements_empty.
Qed.

Lemma batch_pricing_single domain self :
  (∀ s, set_iter s ≡ₚ elements s) →
  batch_pricing config net set_iter [domain] self
    = (Return (match fst (get_domain_pricing config net domain self) with
               | Return (Some p) => {[domain := p]}
               | _ => ∅
               end),
       snd (get_domain_pricing config net domain self)).
Proof.
  intros Horder. unfold batch_pricing, bind, ret.
  assert (tld_set [domain] = {[tld_of domain]}) as ->.
  { unfold tld_set. apply list_to_set_singleton_L. }
  rewrite (set_iter_singleton _ Horder), price_tlds_cons.
  rewrite get_domain_pricing_run. simpl.
  destruct (fst (get_tld_pricing config net (tld_of domain) self)) as [[q |] | e]; simpl.
  - by rewrite lookup_insert_eq, insert_empty.
  - by rewrite lookup_empty.
  - by rewrite lookup_empty.
Qed.

(** X11.  For a single domain the batch call and the single-domain call
    agree: the batch returns the one price that [get_domain_pricing]
    returns, filed under the domain, and leaves the client in the same
    state; where the single-domain call returns no price or raises, the
    batch returns an empty map. *)
Theorem single_domain_batch_agrees domain self :
  (∀ s, set_iter s ≡ₚ elements s) →
  batch_pricing config net set_iter [domain] self
    = (Return (match fst (get_domain_pricing config net domain self) with
               | Return (Some p) => {[domain := p]}
               | _ => ∅
               end),
       snd (get_domain_pricing config net domain self)).
Proof.
  intros Horder. unfold batch_pricing, bind, ret.
  assert (tld_set [domain] = {[tld_of domain]}) as ->
    by apply list_to_set_singleton_L.
  rewrite (set_iter_singleton _ Horder), price_tlds_cons, get_domain_pricing_run.
  simpl.
  destruct (fst (get_tld_pricing config net (tld_of domain) self)) as [[q |] | e];
    simpl.
  - by rewrite lookup_insert_eq, insert_empty.
  - by rewrite lookup_empty.
  - by rewrite lookup_empty.
Qed.

(** X12.  No input, no work: an empty batch returns an empty map, an
    empty domain list returns an empty report, and neither sends a
    request or touches the cache. *)
Theorem empty_input_does_nothing include_pricing self :
  (∀ s, set_iter s ≡ₚ elements s) →
  batch_pricing config net set_iter [] self = (Return ∅, self)
  ∧ check_multiple_domains config net set_iter lookup [] include_pricing self
    = (Return [], self).
Proof.
  intros Horder. split.
  - unfold batch_pricing, bind, ret.
    assert (tld_set [] = ∅) as -> by done.
    by rewrite (set_iter_empty Horder).
  - unfold check_multiple_domains. by destruct include_pricing.
Qed.

End small_batches.

(** ** Tiers *)

Lemma category_cases (p : DomainPrice.t) :
  DomainPrice.category p = "bundled" ∨ DomainPrice.category p = "recommended"
  ∨ DomainPrice.category p = "standard" ∨ DomainPrice.category p = "premium".
Proof.
  unfold DomainPrice.category.
  destruct (DomainPrice.is_bundled p), (DomainPrice.is_recommended p),
    (DomainPrice.is_premium p); auto.
Qed.

Lemma in_category_cons category domain price items :
  in_category category ((domain, price) :: items)
    = if bool_decide (DomainPrice.category price = category)
      then domain :: in_category category items
      else in_category category items.
Proof.
  unfold in_category. rewrite filter_cons. simpl.
  case_bool_decide; by case_decide.
Qed.

Ltac decide_keys :=
  repeat first [ rewrite bool_decide_eq_true_2 by done
               | rewrite bool_decide_eq_false_2 by done ].

Lemma categorize_loop_lists items b r s p :
  categorize_loop items
    [("bundled", b); ("recommended", r); ("standard", s); ("premium", p)]
  = Some [("bundled", (b ++ in_category "bundled" items)%list);
          ("recommended", (r ++ in_category "recommended" items)%list);
          ("standard", (s ++ in_category "standard" items)%list);
          ("premium", (p ++ in_category "premium" items)%list)].
Proof.
  revert b r s p. induction items as [| [domain price] items IH]; intros b r s p.
  - unfold in_category. simpl. by rewrite !app_nil_r.
  - rewrite !in_category_cons. cbn [categorize_loop].
    destruct (category_cases price) as [Hc | [Hc | [Hc | Hc]]]; rewrite Hc;
      cbn [append_to fmap option_fmap option_map]; decide_keys;
      cbn [fmap option_fmap option_map]; rewrite IH, <- ?app_assoc; done.
Qed.

Lemma in_category_partition items :
  (in_category "bundled" items ++ in_category "recommended" items
   ++ in_category "standard" items ++ in_category "premium" items)%list
  ≡ₚ map fst items.
Proof.
  induction items as [| [domain price] items IH]; [done |].
  rewrite !in_category_cons. cbn [map fst].
  destruct (category_cases price) as [Hc | [Hc | [Hc | Hc]]]; rewrite Hc; decide_keys.
  - rewrite <- app_comm_cons. by rewrite IH.
  - rewrite <- app_comm_cons, <- Permutation_middle. by rewrite IH.
  - rewrite <- app_comm_cons, (app_assoc (in_category "bundled" items)).
    rewrite <- Permutation_middle, <- app_assoc. by rewrite IH.
  - rewrite !app_assoc, <- Permutation_middle, <- !app_assoc. by rewrite IH.
Qed.

(** X13.  [categorize_domains_by_pricing] never fails on a key: it
    returns the four lists under "bundled", "recommended", "standard" and
    "premium" in that order, each list holding the domains of its
    category in the order of the input, and the four lists together hold
    every input domain once. *)
Theorem categorize_partitions (domain_prices : list (string * DomainPrice.t)) :
  categorize_domains_by_pricing domain_prices
    = Some [("bundled", in_category "bundled" domain_prices);
            ("recommended", in_category "recommended" domain_prices);
            ("standard", in_category "standard" domain_prices);
            ("premium", in_category "premium" domain_prices)]
  ∧ (in_category "bundled" domain_prices ++ in_category "recommended" domain_prices
     ++ in_category "standard" domain_prices ++ in_category "premium" domain_prices)%list
    ≡ₚ map fst domain_prices.
Proof.
  split; [| apply in_category_partition].
  unfold categorize_domains_by_pricing, categories_init.
  by rewrite categorize_loop_lists.
Qed.

(** X14.  Whatever the three thresholds are, the tier never goes down
    when the price goes up: in the order bundled, recommended, standard,
    premium, a dearer price has the same tier or a later one. *)
Theorem category_monotone (config : Config) (p1 p2 : DomainPrice.t) :
  DomainPrice.price_cents p1 <= DomainPrice.price_cents p2 →
  (tier_rank (DomainPrice.category (DomainPrice.__post_init__ config p1))
   ≤ tier_rank (DomainPrice.category (DomainPrice.__post_init__ config p2)))%nat.
Proof.
  intros Hle. unfold DomainPrice.category.
  destruct (post_init_flags config p1) as (-> & -> & -> & _).
  destruct (post_init_flags config p2) as (-> & -> & -> & _).
  repeat case_bool_decide; try lia; vm_compute; lia.
Qed.

Lemma category_monotone_witness :
  (tier_rank (DomainPrice.category
                (DomainPrice.__post_init__ thresholds
                   (DomainPrice.mk "a.com" "com" 1000 "USD" false false false None)))
   ≤ tier_rank (DomainPrice.category
                  (DomainPrice.__post_init__ thresholds
                     (DomainPrice.mk "b.io" "io" 2000 "USD" false false false None))))%nat.
Proof.
  apply (category_monotone thresholds
           (DomainPrice.mk "a.com" "com" 1000 "USD" false false false None)
           (DomainPrice.mk "b.io" "io" 2000 "USD" false false false None)).
  simpl. lia.
Defined.

(** ** The command line *)

Section display_facts.
Context {float_ops : PyFloat} {display_ops : PyDisplay}.

(** X15.  The line for a result shows a price only when the result is
    AVAILABLE: for any other status a price that is passed in changes
    nothing, and for an available result it is appended to the line that
    would be printed without it. *)
Theorem price_shown_only_when_available (result : DomainResult.t) (price : DomainPrice.t) :
  (DomainResult.status result ≠ AVAILABLE →
   format_domain_result result (Some price) = format_domain_result result None)
  ∧ (DomainResult.status result = AVAILABLE →
     format_domain_result result (Some price)
       = format_domain_result result None ++ " $" ++ format_2f (price_dollars price)
           ++ " (" ++ DomainPrice.category price ++ ")").
Proof.
  unfold format_domain_result.
  destruct (DomainResult.status result); split; done.
Qed.

Lemma collect_domains_concat read_lines items acc :
  foldl (λ domains item,
           match read_lines item with
           | Some lines => (domains ++ file_domains lines)%list
           | None => (domains ++ [item])%list
           end)
        acc items
  = (acc ++ concat (map (λ item, match read_lines item with
                                 | Some lines => file_domains lines
                                 | None => [item]
                                 end) items))%list.
Proof.
  revert acc. induction items as [| item items IH]; intros acc; simpl.
  - by rewrite app_nil_r.
  - rewrite IH. destruct (read_lines item); by rewrite <- app_assoc.
Qed.

(** X16.  The domains to check are the arguments in their order, each
    argument that is a readable file replaced by the names read from it.
    An argument that is not a file is taken as it is.  A name read from a
    file is a stripped line, is never empty, and comes from a line whose
    first character is not [#]: a [#] behind leading blanks does not make
    a comment. *)
Theorem collected_domains read_lines items :
  collect_domains read_lines items
    = concat (map (λ item, match read_lines item with
                           | Some lines => file_domains lines
                           | None => [item]
                           end) items)
  ∧ ∀ lines d,
      d ∈ file_domains lines ↔
      d ≠ "" ∧ ∃ line, line ∈ lines ∧ starts_with_hash line = false ∧ d = str_strip line.
Proof.
  split.
  - unfold collect_domains. by rewrite collect_domains_concat.
  - intros lines d. unfold file_domains.
    rewrite list_elem_of_fmap. split.
    + intros (line & -> & Hline). apply list_elem_of_filter in Hline as [[Hne Hhash] Hin].
      split; [done |]. by exists line.
    + intros (Hne & line & Hin & Hhash & ->). exists line. split; [done |].
      apply list_elem_of_filter. by split.
Qed.

End display_facts.

(** ** The JSON rows *)

Section json_facts.
Context {float_ops : PyFloat} {display_ops : PyDisplay}.

Lemma extract_fold_lookup results (acc : gmap string DomainPrice.t) d :
  foldl (λ pricing_info result,
           match DomainResult._pricing_info result with
           | Some price => <[DomainResult.domain result := price]> pricing_info
           | None => pricing_info
           end)
        acc results !! d
  = match last_price_named d results with
    | Some price => Some price
    | None => acc !! d
    end.
Proof.
  revert acc. unfold last_price_named.
  induction results as [| r results IH]; intros acc; [done |].
  cbn [foldl omap list_omap]. rewrite IH. clear IH.
  set (rest := omap _ results).
  case_bool_decide as Hname.
  - destruct (DomainResult._pricing_info r) as [price |]; simpl.
    + rewrite last_cons. destruct (last rest); [done |].
      by rewrite Hname, lookup_insert_eq.
    + done.
  - simpl. destruct (last rest); [done |].
    destruct (DomainResult._pricing_info r) as [price |]; [| done].
    by rewrite lookup_insert_ne.
Qed.

(** X17.  The JSON output has one row per result, in order, carrying the
    domain and the status of the result.  A row has a ["pricing"] member
    exactly when pricing is on and some result of the same name carries a
    price, and the member then shows the price of the last such result,
    whatever the status of the row itself. *)
Theorem json_rows include_pricing results :
  length (json_results include_pricing results) = length results
  ∧ ∀ i r, results !! i = Some r →
      ∃ row, json_results include_pricing results !! i = Some (PDict row)
             ∧ dict_lookup "domain" row = Some (PStr (DomainResult.domain r))
             ∧ dict_lookup "status" row
               = Some (PStr (status_str (DomainResult.status r)))
             ∧ dict_lookup "pricing" row
               = pricing_json <$>
                   (if include_pricing
                    then last_price_named (DomainResult.domain r) results
                    else None).
Proof.
  split; [apply length_map |].
  intros i r Hr. unfold json_results. rewrite list_lookup_fmap, Hr. simpl.
  assert (extract_pricing_info include_pricing results !! DomainResult.domain r
          = if include_pricing
            then last_price_named (DomainResult.domain r) results else None) as Hheld.
  { unfold extract_pricing_info. destruct include_pricing; [| apply lookup_empty].
    rewrite extract_fold_lookup, lookup_empty.
    by destruct (last_price_named _ _). }
  unfold result_json. rewrite Hheld.
  destruct (if include_pricing then _ else _) as [price |];
    eexists; (split; [reflexivity |]); cbn [app dict_lookup]; decide_keys; done.
Qed.

End json_facts.

(** ** The single-domain path and the dispatch *)

Section single_facts.
Context {float_ops : PyFloat} {str_ops : PyStr}.
Context (config : Config) (net : nat → fetch_outcome).
Context (set_iter : gset string → list string).
Context (lookup : nat → string → lookup_outcome).

Lemma check_single_domain_run domain include_pricing self :
  check_single_domain config net lookup domain include_pricing self
  = if include_pricing
       && bool_decide (DomainResult.status (check_domain lookup domain) = AVAILABLE)
    then (Return (match fst (get_domain_pricing config net domain self) with
                  | Return (Some p) =>
                      DomainResult.set_pricing_info (check_domain lookup domain) p
                  | _ => check_domain lookup domain
                  end),
          snd (get_domain_pricing config net domain self))
    else (Return (check_domain lookup domain), self).
Proof.
  unfold check_single_domain.
  destruct (include_pricing && _); [| done].
  unfold try_except, bind, ret.
  by destruct (get_domain_pricing config net domain self) as [[[p |] | e] self'].
Qed.

(** X18.  The single-domain check never raises and returns the
    availability result of the domain.  It carries a price only when
    pricing is on and the domain is AVAILABLE, the price being the one
    [get_domain_pricing] returns, bound to the domain.  It sends at most
    one request, and none when pricing is off or the domain is not
    available. *)
Theorem single_check_prices_available_only domain include_pricing self :
  ∃ result self',
    check_single_domain config net lookup domain include_pricing self
      = (Return result, self')
    ∧ same_result result (check_domain lookup domain)
    ∧ (sent self ≤ sent self' ≤ S (sent self))%nat
    ∧ (∀ p, DomainResult._pricing_info result = Some p →
            include_pricing = true
            ∧ DomainResult.status result = AVAILABLE
            ∧ DomainPrice.domain p = domain
            ∧ fst (get_domain_pricing config net domain self) = Return (Some p))
    ∧ (include_pricing = false ∨ DomainResult.status (check_domain lookup domain) ≠ AVAILABLE →
       result = check_domain lookup domain ∧ self' = self).
Proof.
  rewrite check_single_domain_run.
  assert (DomainResult._pricing_info (check_domain lookup domain) = None) as Hnone
    by apply check_domain_from_unpriced.
  destruct include_pricing; simpl; [case_bool_decide as Havail |].
  - rewrite get_domain_pricing_run.
    destruct (get_tld_pricing_step config net (tld_of domain) self)
      as (r & self' & -> & Hsent & _).
    simpl. eexists _, _. split; [done |].
    destruct r as [[q |] | e]; simpl; (split_and!; try done; try lia);
      try (by rewrite Hnone); try (by intros [? | ?]).
    intros p [= <-]. by split_and!.
  - eexists _, _. split; [done |]. split_and!; try done; try lia.
    by rewrite Hnone.
  - eexists _, _. split; [done |]. split_and!; try done; try lia.
    by rewrite Hnone.
Qed.

(** X19.  One domain, two paths, one outcome: for a list of a single
    domain the batch check returns what the single-domain check returns,
    as a list of one, and leaves the client in the same state, so that
    the choice [run_checks] makes on the number of domains does not show. *)
Theorem one_domain_paths_agree domain include_pricing self :
  (∀ s, set_iter s ≡ₚ elements s) →
  check_multiple_domains config net set_iter lookup [domain] include_pricing self
  = run_checks_results config net set_iter lookup [domain] include_pricing self.
Proof.
  intros Horder.
  unfold run_checks_results, bind, ret. rewrite check_single_domain_run.
  unfold check_multiple_domains, check_domains, available_of.
  cbn [imap]. fold (check_domain lookup domain).
  destruct include_pricing; [| done]. cbn [andb].
  rewrite filter_cons, filter_nil.
  destruct (decide (DomainResult.status (check_domain lookup domain) = AVAILABLE))
    as [Havail | Hnot].
  - rewrite bool_decide_eq_true_2 by done. cbn [map].
    unfold check_domain at 1. rewrite check_domain_from_domain.
    unfold get_batch_pricing, try_except, bind, ret.
    rewrite (batch_pricing_single config net set_iter domain self Horder).
    unfold attach_pricing.
    unfold check_domain at 1. rewrite check_domain_from_domain.
    fold (check_domain lookup domain).
    destruct (fst (get_domain_pricing config net domain self)) as [[p |] | e].
    + by rewrite lookup_singleton_eq.
    + by rewrite lookup_empty.
    + by rewrite lookup_empty.
  - by rewrite bool_decide_eq_false_2 by done.
Qed.

End single_facts.

(** ** Prices and requests of a report *)

Section report_facts.
Context {float_ops : PyFloat} {str_ops : PyStr}.
Context (config : Config) (net : nat → fetch_outcome).
Context (set_iter : gset string → list string).
Context (lookup : nat → string → lookup_outcome).

Lemma prices_of_run_projected domains include_pricing self d p :
  prices_of_run config net set_iter lookup domains include_pricing self !! d = Some p →
  include_pricing = true ∧ ∃ q, p = project_price config d q.
Proof.
  unfold prices_of_run.
  destruct include_pricing; [| by rewrite lookup_empty].
  destruct (available_of (check_domains lookup domains)) as [| a ds];
    [by rewrite lookup_empty |].
  unfold get_batch_pricing.
  destruct (batch_pricing_run config net set_iter (a :: ds) self)
    as (pricing_results & self' & _ & ->).
  cbn [fst]. rewrite map_back_lookup.
  case_decide; [| by rewrite lookup_empty].
  destruct (pricing_results !! tld_of d) as [q |]; [| by rewrite lookup_empty].
  intros [= <-]. split; [done |]. by exists q.
Qed.

(** X20.  A price on an entry of the report is there by name: pricing was
    on, the price is bound to the domain of its entry with the flags of
    the thresholds, and some entry of that name in the report is
    AVAILABLE. *)
Theorem attached_price_has_available_namesake
    domains include_pricing self report self' r p :
  check_multiple_domains config net set_iter lookup domains include_pricing self
    = (Return report, self') →
  r ∈ report →
  DomainResult._pricing_info r = Some p →
  include_pricing = true
  ∧ DomainPrice.domain p = DomainResult.domain r
  ∧ DomainPrice.__post_init__ config p = p
  ∧ ∃ r', r' ∈ report
          ∧ DomainResult.domain r' = DomainResult.domain r
          ∧ DomainResult.status r' = AVAILABLE.
Proof.
  intros Hrun Hr Hprice.
  destruct (check_multiple_domains_run config net set_iter lookup
              domains include_pricing self) as [self'' Hrun'].
  rewrite Hrun in Hrun'. injection Hrun' as -> _.
  set (prices := prices_of_run _ _ _ _ _ _ _) in *.
  apply list_elem_of_fmap in Hr as (r0 & -> & Hr0).
  rewrite attach_pricing_info in Hprice
    by apply (check_domains_unpriced lookup domains), Hr0.
  rewrite (proj1 (attach_pricing_same prices r0)).
  destruct (prices_of_run_projected _ _ _ _ _ Hprice) as (-> & q & ->).
  split_and!; [done | done | done |].
  assert (is_Some (prices !! DomainResult.domain r0)) as Hsome by by eexists.
  apply prices_of_run_keys in Hsome. unfold available_of in Hsome.
  apply list_elem_of_fmap in Hsome as (r1 & Hname & Hr1).
  apply list_elem_of_filter in Hr1 as [Havail Hr1].
  exists (attach_pricing prices r1).
  destruct (attach_pricing_same prices r1) as (Hdom & Hstatus & _).
  split_and!; [by apply list_elem_of_fmap_2 | congruence | congruence].
Qed.

(** X21.  A batch check asks the endpoint only for TLDs of available
    domains that are not cached yet, once each: the requests it sends are
    as many as the distinct lower-cased TLDs, not yet cached, of the
    domains for which the lookup found no registration record.  With
    pricing off, or with no domain available, it sends nothing. *)
Theorem report_requests domains include_pricing self :
  (∀ s, set_iter s ≡ₚ elements s) →
  sent (snd (check_multiple_domains config net set_iter lookup
               domains include_pricing self))
  = (sent self
     + if include_pricing
       then length (distinct_uncached_tlds (_price_cache self)
                      (names_without_record lookup domains))
       else 0)%nat.
Proof.
  intros Horder. unfold check_multiple_domains.
  destruct include_pricing; [| simpl; lia].
  rewrite <- size_uncached_tlds, <- available_of_names.
  destruct (available_of (check_domains lookup domains)) as [| a ds] eqn:Havail.
  - unfold tld_set. cbn [map list_to_set foldr].
    rewrite empty_difference_L, size_empty. simpl. lia.
  - rewrite <- (batch_pricing_sent_uncached config net set_iter (a :: ds) self Horder).
    unfold get_batch_pricing, try_except, bind, ret.
    by destruct (batch_pricing_run config net set_iter (a :: ds) self)
      as (pricing_results & self1 & _ & ->).
Qed.

End report_facts.

(** ** The further properties at work *)

Lemma catalogue_served n : serves (catalogue_net n) [PDict com_entry; PDict io_entry].
Proof. eexists. by split_and!. Qed.

Lemma first_match_wins_witness :
  get_tld_pricing thresholds catalogue_net "io" pricing_client
  = (Return (Some io_price),
     {| _price_cache := <["io" := io_price]> ∅; sent := 1 |}).
Proof.
  apply (first_match_wins thresholds catalogue_net "io" pricing_client
           [PDict com_entry] io_entry [] io_price).
  - reflexivity.
  - apply catalogue_served.
  - by repeat constructor.
  - reflexivity.
  - reflexivity.
Defined.

Lemma absent_tld_returns_none_witness :
  get_tld_pricing thresholds catalogue_net "zzz" pricing_client
  = (Return None, after_request pricing_client).
Proof.
  apply (absent_tld_returns_none thresholds catalogue_net "zzz" pricing_client
           [PDict com_entry; PDict io_entry]).
  - reflexivity.
  - apply catalogue_served.
  - by repeat constructor.
Defined.

Lemma malformed_item_hides_later_entries_witness :
  ∃ msg, get_tld_pricing thresholds broken_net "com" pricing_client
         = (Raise (Exc PricingError msg), after_request pricing_client).
Proof.
  apply (malformed_item_hides_later_entries thresholds broken_net "com" pricing_client
           [PDict io_entry] (PStr "n/a") [PDict com_entry]).
  - reflexivity.
  - eexists. by split_and!.
  - by repeat constructor.
  - reflexivity.
Defined.

Lemma missing_price_is_zero_witness :
  fst (get_tld_pricing thresholds unpriced_net "dev" pricing_client)
  = Return (Some (DomainPrice.new thresholds ".dev" "dev" 0 "USD" (Some 0))).
Proof.
  apply (missing_price_is_zero thresholds unpriced_net "dev" pricing_client
           [PDict com_entry] unpriced_entry []).
  - reflexivity.
  - eexists. by split_and!.
  - by repeat constructor.
  - reflexivity.
  - reflexivity.
  - reflexivity.
Defined.

Lemma domain_price_is_cached_tld_price_witness :
  let run := get_domain_pricing thresholds catalogue_net "Shop.COM" pricing_client in
  let p := DomainPrice.new thresholds "Shop.COM" "com" 977 "USD" (Some 97700) in
  DomainPrice.domain p = "Shop.COM"
  ∧ ∃ q, _price_cache (snd run) !! tld_of "Shop.COM" = Some q
         ∧ p = project_price thresholds "Shop.COM" q.
Proof.
  intros run p.
  apply (proj1 (domain_price_is_cached_tld_price thresholds catalogue_net "Shop.COM"
                  pricing_client (fst run) (snd run) (surjective_pairing run)) p).
  vm_compute. reflexivity.
Defined.

Lemma cache_never_forgets_witness :
  _price_cache (snd (batch_pricing thresholds flaky_net elements three_domains warm_client))
    !! "com" = Some com_price.
Proof.
  apply (proj2 (proj2 (cache_never_forgets thresholds flaky_net elements
                         warm_client "com" com_price eq_refl)) three_domains).
Defined.

Lemma batch_prices_well_formed_witness :
  let run := batch_pricing thresholds catalogue_net elements three_domains pricing_client in
  let m := match fst run with Return m => m | Raise _ => ∅ end in
  cache_wf thresholds (_price_cache (snd run))
  ∧ ∀ d p, m !! d = Some p →
      d ∈ three_domains
      ∧ DomainPrice.domain p = d
      ∧ DomainPrice.tld p = tld_of d
      ∧ DomainPrice.currency p = "USD"
      ∧ is_Some (DomainPrice.annual_renewal_cents p)
      ∧ DomainPrice.__post_init__ thresholds p = p.
Proof.
  intros run m.
  apply (batch_prices_well_formed thresholds catalogue_net elements three_domains
           pricing_client m (snd run)).
  - intros k p. simpl. by rewrite lookup_empty.
  - vm_compute. reflexivity.
Defined.

Lemma batch_returns_cached_prices_witness :
  ∃ m self',
    batch_pricing thresholds flaky_net elements three_domains pricing_client
      = (Return m, self')
    ∧ (∀ d, m !! d = if decide (d ∈ three_domains)
                     then project_price thresholds d <$> _price_cache self' !! tld_of d
                     else None)
    ∧ (∀ d1 d2, d1 ∈ three_domains → d2 ∈ three_domains → tld_of d1 = tld_of d2 →
         DomainPrice.price_cents <$> m !! d1 = DomainPrice.price_cents <$> m !! d2
         ∧ DomainPrice.annual_renewal_cents <$> m !! d1
           = DomainPrice.annual_renewal_cents <$> m !! d2
         ∧ DomainPrice.category <$> m !! d1 = DomainPrice.category <$> m !! d2).
Proof.
  apply (batch_returns_cached_prices thresholds flaky_net elements three_domains
           pricing_client).
  intros s. reflexivity.
Defined.

Lemma one_fetch_per_uncached_tld_witness :
  length five_domains = 5%nat
  ∧ distinct_uncached_tlds (_price_cache warm_client) five_domains = ["io"]
  ∧ sent warm_client = 1%nat
  ∧ sent (snd (batch_pricing thresholds catalogue_net elements five_domains warm_client))
    = 2%nat.
Proof.
  split_and!; [reflexivity | by vm_compute | reflexivity |].
  rewrite (one_fetch_per_uncached_tld thresholds catalogue_net elements
             five_domains warm_client (λ s, reflexivity (elements s))).
  by vm_compute.
Defined.

(** With [com] cached, the five domains over [com] and [io] cost one
    request. *)
Example warm_cache_one_fetch :
  size (tld_set five_domains ∖ dom (_price_cache warm_client)) = 1%nat
  ∧ sent (snd (batch_pricing thresholds catalogue_net elements five_domains warm_client))
    = 2%nat.
Proof. vm_compute. done. Qed.

Lemma rerun_fully_priced_batch_witness :
  let run := batch_pricing thresholds catalogue_net elements two_domains pricing_client in
  let m := match fst run with Return m => m | Raise _ => ∅ end in
  batch_pricing thresholds catalogue_net elements two_domains (snd run)
  = (Return m, snd run).
Proof.
  intros run m.
  apply (rerun_fully_priced_batch thresholds catalogue_net elements two_domains
           pricing_client m (snd run)).
  - intros s. reflexivity.
  - vm_compute. reflexivity.
  - intros d Hd. unfold two_domains in Hd.
    apply elem_of_cons in Hd as [-> | Hd]; [eexists; vm_compute; reflexivity |].
    apply elem_of_cons in Hd as [-> | Hd]; [eexists; vm_compute; reflexivity |].
    by apply elem_of_nil in Hd.
Defined.

Lemma single_domain_batch_agrees_witness :
  batch_pricing thresholds catalogue_net elements ["b.io"] pricing_client
  = (Return (match fst (get_domain_pricing thresholds catalogue_net "b.io" pricing_client)
             with
             | Return (Some p) => {["b.io" := p]}
             | _ => ∅
             end),
     snd (get_domain_pricing thresholds catalogue_net "b.io" pricing_client)).
Proof.
  apply (single_domain_batch_agrees thresholds catalogue_net elements "b.io"
           pricing_client).
  intros s. reflexivity.
Defined.

Lemma empty_input_does_nothing_witness :
  batch_pricing thresholds catalogue_net elements [] pricing_client
    = (Return ∅, pricing_client)
  ∧ check_multiple_domains thresholds catalogue_net elements nothing_registered
      [] true pricing_client
    = (Return [], pricing_client).
Proof.
  apply (empty_input_does_nothing thresholds catalogue_net elements nothing_registered
           true pricing_client).
  intros s. reflexivity.
Defined.

Lemma one_domain_paths_agree_witness :
  check_multiple_domains thresholds catalogue_net elements nothing_registered
    ["b.io"] true pricing_client
  = run_checks_results thresholds catalogue_net elements nothing_registered
      ["b.io"] true pricing_client.
Proof.
  apply (one_domain_paths_agree thresholds catalogue_net elements nothing_registered
           "b.io" true pricing_client).
  intros s. reflexivity.
Defined.

Lemma attached_price_has_available_namesake_witness :
  let run := check_multiple_domains thresholds catalogue_net elements
               times_out_after_first ["a.com"; "a.com"] true pricing_client in
  let report := match fst run with Return report => report | Raise _ => [] end in
  let p := DomainPrice.new thresholds "a.com" "com" 977 "USD" (Some 97700) in
  true = true
  ∧ DomainPrice.domain p = "a.com"
  ∧ DomainPrice.__post_init__ thresholds p = p
  ∧ ∃ r', r' ∈ report
          ∧ DomainResult.domain r' = "a.com"
          ∧ DomainResult.status r' = AVAILABLE.
Proof.
  intros run report p.
  apply (attached_price_has_available_namesake thresholds catalogue_net elements
           times_out_after_first ["a.com"; "a.com"] true pricing_client report (snd run)
           (DomainResult.mk "a.com" UNKNOWN None None None (Some "timeout") (Some p)) p).
  - vm_compute. reflexivity.
  - apply list_elem_of_lookup. exists 1%nat. vm_compute. reflexivity.
  - reflexivity.
Defined.

Lemma report_requests_witness :
  names_without_record registered_io five_domains = ["a.com"; "b.com"; "e.com"]
  ∧ sent warm_client = 1%nat
  ∧ sent (snd (check_multiple_domains thresholds catalogue_net elements
                 registered_io five_domains true warm_client)) = 1%nat
  ∧ sent pricing_client = 0%nat
  ∧ sent (snd (check_multiple_domains thresholds catalogue_net elements
                 registered_io five_domains true pricing_client)) = 1%nat
  ∧ sent (snd (check_multiple_domains thresholds catalogue_net elements
                 nothing_registered five_domains true pricing_client)) = 2%nat.
Proof.
  split_and!; [by vm_compute | reflexivity | | reflexivity | |].
  - rewrite (report_requests thresholds catalogue_net elements registered_io
               five_domains true warm_client (λ s, reflexivity (elements s))).
    by vm_compute.
  - rewrite (report_requests thresholds catalogue_net elements registered_io
               five_domains true pricing_client (λ s, reflexivity (elements s))).
    by vm_compute.
  - rewrite (report_requests thresholds catalogue_net elements nothing_registered
               five_domains true pricing_client (λ s, reflexivity (elements s))).
    by vm_compute.
Defined.

Lemma price_shown_only_when_available_witness :
  format_domain_result registered_result (Some com_price)
  = format_domain_result registered_result None.
Proof.
  apply (proj1 (price_shown_only_when_available registered_result com_price)).
  simpl. discriminate.
Defined.

Lemma collected_domains_witness :
  String "#" (String "x" EmptyString) ∈ file_domains names_file.
Proof.
  apply (proj2 (collected_domains (λ _, None) []) names_file).
  split; [discriminate |].
  exists (String " " (String "#" (String "x" (String LF EmptyString)))).
  split_and!; [| reflexivity | reflexivity].
  apply list_elem_of_lookup. exists 3%nat. reflexivity.
Defined.

Lemma json_rows_witness :
  ∃ row, json_results true [priced_unknown_result] !! 0%nat = Some (PDict row)
         ∧ dict_lookup "domain" row = Some (PStr "a.com")
         ∧ dict_lookup "status" row = Some (PStr "UNKNOWN")
         ∧ dict_lookup "pricing" row
           = pricing_json <$> last_price_named "a.com" [priced_unknown_result].
Proof.
  apply (proj2 (json_rows true [priced_unknown_result]) 0%nat priced_unknown_result).
  reflexivity.
Defined.

Lemma single_check_prices_available_only_witness :
  ∃ result self',
    check_single_domain thresholds catalogue_net times_out_after_first
      "a.com" false pricing_client = (Return result, self')
    ∧ result = check_domain times_out_after_first "a.com"
    ∧ self' = pricing_client.
Proof.
  destruct (single_check_prices_available_only thresholds catalogue_net
              times_out_after_first "a.com" false pricing_client)
    as (result & self' & Hrun & _ & _ & _ & Hoff).
  exists result, self'. split; [exact Hrun |].
  apply Hoff. left. reflexivity.
Defined.
